(** * Bugfree VS Code extension: the sidebar provider and its socket wiring

    A shallow embedding of [vscode-extension/src/extension.ts], and of the
    connection code of the compiled [vscode-extension/out/extension.js] in
    the definitions named [out_...].

    The provider object is a record of its four mutable fields; every method
    and every socket callback is a computation in a small monad that threads
    the provider, records the calls made to the host (notices, tree refresh,
    console, socket, webview panels) in order, and may throw.

    Builtins of the JavaScript runtime that the code calls but does not
    define are parameters of the development: the number type with its
    ToBoolean, ToString, multiplication, comparison with zero, NaN and
    [Math.round], the conversion of a string to a number, the length and
    the [substring] of a string, [JSON.parse], and the [ws] constructor's
    decision to accept or reject a URL.

    Tree rendering ([getChildren], [getTreeItem]) works on the stored
    values as they are at run time, so it can throw where a stored value
    lacks what the code reads from it. *)

From Stdlib Require Import String Ascii List ZArith Bool Lia DecimalString.
Import ListNotations.
Open Scope string_scope.
Set Warnings "-register-all".

(** ** Text helpers *)

(** The double-quote character, as a one-character string. *)
Definition dq : string := String (ascii_of_nat 34) EmptyString.

(** The line feed, as a one-character string. *)
Definition nl : string := String (ascii_of_nat 10) EmptyString.

Fixpoint spaces (n : nat) : string :=
  match n with
  | O => EmptyString
  | S k => String (ascii_of_nat 32) (spaces k)
  end.

(** One line of a template literal: indentation, text, line feed. *)
Definition ln (indent : nat) (text : string) : string :=
  spaces indent ++ text ++ nl.

(** Decimal rendering of an integer, as a template literal prints an
    integer-valued number. *)
Definition string_of_Z (z : Z) : string :=
  NilZero.string_of_int (Z.to_int z).

(** ** Data *)

Section Data.

Variable number : Type.

(** What [JSON.parse] can return, plus [undefined] for absent members. *)
Inductive value : Type :=
| JUndefined
| JNull
| JBool (b : bool)
| JNum (n : number)
| JStr (s : string)
| JArr (items : list value)
| JObj (props : list (string * value)).

(** [interface ErrorContext] *)
Record ErrorContext : Type := {
  error_type : string;
  error_message : string;
  file_path : string;
  line_number : number;
  severity : string;
  timestamp : string
}.

(** [interface FixSuggestion]; [explanation?] is optional. *)
Record FixSuggestion : Type := {
  title : string;
  description : string;
  code_snippet : string;
  confidence_score : number;
  agent_source : string;
  explanation : option string
}.

(** The object literals handed to [JSON.stringify] before [ws.send]. *)
Inductive outbound : Type :=
| start_system
| stop_system
| apply_fix (suggestion : FixSuggestion)
| analyze_error (file : string) (line : Z).

(** Values that can be thrown and caught. *)
Inductive error : Type :=
| TypeError
| SyntaxError
| SocketError (what : string).

(** Calls into the host, the console and the socket, in program order. *)
Inductive event : Type :=
| showInformationMessage (text : string)
| showWarningMessage (text : string)
| showErrorMessage (text : string)
| console_error (label : string) (e : error)
| fire
| ws_new (url : string)
| ws_send (m : outbound)
| ws_close
| createWebviewPanel (viewType panelTitle html : string).

(** The socket handle kept in [this.ws]. *)
Record WebSocket : Type := { url : string }.

(** The mutable fields of [class BugfreeProvider].  The two sequences hold
    whatever the inbound messages carried: [handleBugfreeMessage] takes its
    argument as [any] and stores members unchecked. *)
Record BugfreeProvider : Type := {
  currentErrors : list value;
  currentSuggestions : value;
  ws : option WebSocket;
  isConnected : bool
}.

(** The [bugfree] section of the workspace configuration; [None] is a
    setting the user has not given. *)
Record Configuration : Type := {
  serverHost : option string;
  serverPort : option Z;
  autoStart : option bool
}.

(** [vscode.window.activeTextEditor], reduced to what the code reads. *)
Record TextEditor : Type := {
  fileName : string;
  active_line : Z
}.

End Data.

Arguments JUndefined {number}.
Arguments JNull {number}.
Arguments JBool {number} b.
Arguments JNum {number} n.
Arguments JStr {number} s.
Arguments JArr {number} items.
Arguments JObj {number} props.
Arguments start_system {number}.
Arguments stop_system {number}.
Arguments apply_fix {number} suggestion.
Arguments analyze_error {number} file line.
Arguments showInformationMessage {number} text.
Arguments showWarningMessage {number} text.
Arguments showErrorMessage {number} text.
Arguments console_error {number} label e.
Arguments fire {number}.
Arguments ws_new {number} url.
Arguments ws_send {number} m.
Arguments ws_close {number}.
Arguments createWebviewPanel {number} viewType panelTitle html.
Arguments error_type {number} e.
Arguments error_message {number} e.
Arguments file_path {number} e.
Arguments line_number {number} e.
Arguments severity {number} e.
Arguments timestamp {number} e.
Arguments title {number} f.
Arguments description {number} f.
Arguments code_snippet {number} f.
Arguments confidence_score {number} f.
Arguments agent_source {number} f.
Arguments explanation {number} f.
Arguments currentErrors {number} b.
Arguments currentSuggestions {number} b.
Arguments ws {number} b.
Arguments isConnected {number} b.
Arguments Build_BugfreeProvider {number} currentErrors currentSuggestions ws isConnected.
Arguments Build_FixSuggestion {number} title description code_snippet confidence_score agent_source explanation.
Arguments Build_ErrorContext {number} error_type error_message file_path line_number severity timestamp.

(** ** Tree items *)

(** [vscode.TreeItemCollapsibleState] *)
Module TreeItemCollapsibleState.
Inductive t : Type :=
| None
| Collapsed
| Expanded.
End TreeItemCollapsibleState.

(** [vscode.Command]: the command an item runs when selected
    ([command_title] is its [title] member). *)
Record Command (number : Type) : Type := {
  command : string;
  command_title : string;
  arguments : list (value number)
}.

(** [class BugfreeItem extends vscode.TreeItem] ([item_command] is its
    [command] member); the optional members are [None] until assigned. *)
Record BugfreeItem (number : Type) : Type := {
  label : string;
  collapsibleState : TreeItemCollapsibleState.t;
  tooltip : option string;
  contextValue : option string;
  item_command : option (Command number)
}.

Arguments command {number} c.
Arguments command_title {number} c.
Arguments arguments {number} c.
Arguments Build_Command {number} command command_title arguments.
Arguments label {number} b.
Arguments collapsibleState {number} b.
Arguments tooltip {number} b.
Arguments contextValue {number} b.
Arguments item_command {number} b.
Arguments Build_BugfreeItem {number} label collapsibleState tooltip contextValue item_command.

(** ** A concrete host

    An instance of the runtime's builtins on which the model computes:
    numbers are the integers, and [JSON_parse] covers the few texts the
    examples feed it and rejects every other one. *)

Module Sample.

Definition number : Type := Z.

Definition number_truthy (n : number) : bool := negb (Z.eqb n 0).

Definition number_text (n : number) : string := string_of_Z n.

Definition number_mul (a b : number) : number := (a * b)%Z.

Definition Math_round (n : number) : number := n.

Definition number_of_Z (z : Z) : number := z.

Definition JSON_parse (text : string) : option (value number) :=
  if String.eqb text "null" then Some JNull
  else if String.eqb text "{}" then Some (JObj [])
  else if String.eqb text "[]" then Some (JArr [])
  else if String.eqb text "true" then Some (JBool true)
  else if String.eqb text "0" then Some (JNum 0%Z)
  else None.

Definition ws_accepts (u : string) : bool := true.

(** No setting given: every default applies. *)
Definition defaults : Configuration :=
  {| serverHost := None; serverPort := None; autoStart := None |}.

Definition suggestion : FixSuggestion number :=
  {| title := "Define the variable";
     description := "The name is used before it is bound";
     code_snippet := "x = 0";
     confidence_score := 1%Z;
     agent_source := "code_agent";
     explanation := None |}.

Definition detected : value number :=
  JObj [("type", JStr "error_detected");
        ("error", JObj [("error_type", JStr "NameError")])].

Definition ready : value number :=
  JObj [("type", JStr "suggestions_ready");
        ("suggestions", JArr [JObj [("title", JStr "Define the variable")]])].

Definition number_positive (n : number) : bool := Z.ltb 0 n.

(** The integers have no NaN; zero stands in for it here, being falsy and
    not positive as NaN is. *)
Definition NaN : number := 0%Z.

Definition StringToNumber (text : string) : number :=
  if String.eqb text "1" then 1%Z else NaN.

Definition String_length (text : string) : number :=
  Z.of_nat (String.length text).

Definition String_substring (text : string) (first last : Z) : string :=
  String.substring (Z.to_nat first) (Z.to_nat (last - first)) text.

(** A second stand-in for [JSON.parse], on three named payloads. *)
Definition inbox (text : string) : option (value number) :=
  if String.eqb text "first" then
    Some (JObj [("type", JStr "error_detected");
                ("error", JObj [("error_type", JStr "NameError");
                                ("error_message", JStr "name 'x' is not defined")])])
  else if String.eqb text "second" then
    Some (JObj [("type", JStr "error_detected");
                ("error", JObj [("error_type", JStr "TypeError");
                                ("error_message", JStr "unsupported operand")])])
  else if String.eqb text "bare" then
    Some (JObj [("type", JStr "error_detected")])
  else if String.eqb text "fixes" then
    Some (JObj [("type", JStr "suggestions_ready");
                ("suggestions", JArr [JObj [("title", JStr "Define the variable")]])])
  else if String.eqb text "garbled" then
    Some (JObj [("type", JStr "suggestions_ready");
                ("suggestions", JStr "none")])
  else None.

(** A message tagged [suggestions_ready] whose suggestions are [null]. *)
Definition ready_without : value number :=
  JObj [("type", JStr "suggestions_ready"); ("suggestions", JNull)].

(** A connected provider whose stored error has all its text members. *)
Definition viewing : BugfreeProvider number :=
  {| currentErrors :=
       [JObj [("error_type", JStr "NameError");
              ("error_message", JStr "name 'x' is not defined");
              ("file_path", JStr "example.py");
              ("line_number", JNum 10%Z)]];
     currentSuggestions :=
       JArr [JObj [("title", JStr "Define the variable");
                   ("confidence_score", JNum 1%Z)]];
     ws := Some {| url := "ws://localhost:8003" |};
     isConnected := true |}.

(** The two collapsible nodes of the tree, as the host hands them back. *)
Definition errors_node : BugfreeItem number :=
  {| label := "Current Errors";
     collapsibleState := TreeItemCollapsibleState.Collapsed;
     tooltip := None;
     contextValue := Some "errors";
     item_command := None |}.

Definition suggestions_node : BugfreeItem number :=
  {| label := "Fix Suggestions";
     collapsibleState := TreeItemCollapsibleState.Collapsed;
     tooltip := None;
     contextValue := Some "suggestions";
     item_command := None |}.

(** A connected provider that already holds an error and a suggestion. *)
Definition busy : BugfreeProvider number :=
  {| currentErrors := [JObj [("error_type", JStr "TypeError")]];
     currentSuggestions := JArr [JObj [("title", JStr "Cast the operand")]];
     ws := Some {| url := "ws://localhost:8003" |};
     isConnected := true |}.

End Sample.

(** ** The monad of methods and callbacks *)

(** How a computation ends: with a value, or with a thrown error. *)
Inductive outcome (A : Type) : Type :=
| Returned (a : A)
| Thrown (e : error).
Arguments Returned {A} a.
Arguments Thrown {A} e.

Section Bugfree.

Variable number : Type.

(** ToBoolean on numbers: false on zero and on NaN. *)
Variable number_truthy : number -> bool.

(** ToString on numbers, as a template literal applies it. *)
Variable number_text : number -> string.

(** Number multiplication, [Math.round], and numeric literals. *)
Variable number_mul : number -> number -> number.
Variable Math_round : number -> number.
Variable number_of_Z : Z -> number.

(** [JSON.parse]; [None] when it throws a SyntaxError. *)
Variable JSON_parse : string -> option (value number).

(** Whether [new WebSocket(url)] returns a socket rather than throwing. *)
Variable ws_accepts : string -> bool.

(** [0 < n] on numbers: false on NaN. *)
Variable number_positive : number -> bool.

(** The number NaN, and ToNumber on strings. *)
Variable NaN : number.
Variable StringToNumber : string -> number.

(** [s.length] and [s.substring(first, last)] on strings. *)
Variable String_length : string -> number.
Variable String_substring : string -> Z -> Z -> string.

Local Abbreviation value := (value number).
Local Abbreviation event := (event number).
Local Abbreviation BugfreeProvider := (BugfreeProvider number).
Local Abbreviation FixSuggestion := (FixSuggestion number).
Local Abbreviation ErrorContext := (ErrorContext number).
Local Abbreviation BugfreeItem := (BugfreeItem number).
Local Abbreviation Command := (Command number).

(** A computation runs on the provider and yields an outcome, the provider
    afterwards, and the calls it made, oldest first. *)
Definition M (A : Type) : Type :=
  BugfreeProvider -> outcome A * BugfreeProvider * list event.

Definition ret {A} (a : A) : M A :=
  fun this => (Returned a, this, []).

Definition bind {A B} (c : M A) (k : A -> M B) : M B :=
  fun this =>
    match c this with
    | (Returned a, this1, log1) =>
        match k a this1 with
        | (r, this2, log2) => (r, this2, (log1 ++ log2)%list)
        end
    | (Thrown e, this1, log1) => (Thrown e, this1, log1)
    end.

Definition throw {A} (e : error) : M A :=
  fun this => (Thrown e, this, []).

(** [try { c } catch (error) { h error }] *)
Definition try_catch {A} (c : M A) (h : error -> M A) : M A :=
  fun this =>
    match c this with
    | (Returned a, this1, log1) => (Returned a, this1, log1)
    | (Thrown e, this1, log1) =>
        match h e this1 with
        | (r, this2, log2) => (r, this2, (log1 ++ log2)%list)
        end
    end.

Definition emit (ev : event) : M unit :=
  fun this => (Returned tt, this, [ev]).

Definition read {A} (field : BugfreeProvider -> A) : M A :=
  fun this => (Returned (field this), this, []).

Definition update (f : BugfreeProvider -> BugfreeProvider) : M unit :=
  fun this => (Returned tt, f this, []).

Notation "x <- c1 ;; c2" := (bind c1 (fun x => c2))
  (at level 61, c1 at next level, right associativity).
Notation "c1 ;; c2" := (bind c1 (fun _ => c2))
  (at level 61, right associativity).

(** Projections of a run. *)
Definition result {A} (r : outcome A * BugfreeProvider * list event) : outcome A :=
  fst (fst r).
Definition after {A} (r : outcome A * BugfreeProvider * list event) : BugfreeProvider :=
  snd (fst r).
Definition calls {A} (r : outcome A * BugfreeProvider * list event) : list event :=
  snd r.

(** Field assignments. *)
Definition set_currentErrors (l : list value) (this : BugfreeProvider) : BugfreeProvider :=
  {| currentErrors := l;
     currentSuggestions := currentSuggestions this;
     ws := ws this;
     isConnected := isConnected this |}.

Definition set_currentSuggestions (v : value) (this : BugfreeProvider) : BugfreeProvider :=
  {| currentErrors := currentErrors this;
     currentSuggestions := v;
     ws := ws this;
     isConnected := isConnected this |}.

Definition set_ws (w : option WebSocket) (this : BugfreeProvider) : BugfreeProvider :=
  {| currentErrors := currentErrors this;
     currentSuggestions := currentSuggestions this;
     ws := w;
     isConnected := isConnected this |}.

Definition set_isConnected (b : bool) (this : BugfreeProvider) : BugfreeProvider :=
  {| currentErrors := currentErrors this;
     currentSuggestions := currentSuggestions this;
     ws := ws this;
     isConnected := b |}.

(** ** JavaScript value operations used by the code *)

(** Own-property lookup in an object's property list. *)
Fixpoint lookup (key : string) (props : list (string * value)) : option value :=
  match props with
  | [] => None
  | (k, v) :: rest => if String.eqb k key then Some v else lookup key rest
  end.

(** [v.key] for the keys the code reads ([type], [error], [suggestions]),
    none of which any prototype defines: a TypeError on [null] and
    [undefined], the own property on an object, [undefined] elsewhere. *)
Definition member (v : value) (key : string) : M value :=
  match v with
  | JUndefined | JNull => throw TypeError
  | JObj props =>
      match lookup key props with
      | Some x => ret x
      | None => ret JUndefined
      end
  | _ => ret JUndefined
  end.

(** [v === 'literal'] *)
Definition strict_equals_string (v : value) (literal : string) : bool :=
  match v with
  | JStr s => String.eqb s literal
  | _ => false
  end.

(** ToBoolean *)
Definition truthy (v : value) : bool :=
  match v with
  | JUndefined | JNull => false
  | JBool b => b
  | JNum n => number_truthy n
  | JStr s => negb (String.eqb s EmptyString)
  | JArr _ | JObj _ => true
  end.

(** [a || b] *)
Definition or_else (a b : value) : value :=
  if truthy a then a else b.

(** [config.get(key, defaultValue)] *)
Definition get {A} (setting : option A) (defaultValue : A) : A :=
  match setting with
  | Some v => v
  | None => defaultValue
  end.

(** ** class BugfreeProvider *)

(** [refresh()] *)
Definition refresh : M unit :=
  emit fire.

(** [handleBugfreeMessage(message: any)] *)
Definition handleBugfreeMessage (message : value) : M unit :=
  t <- member message "type" ;;
  if strict_equals_string t "error_detected" then
    e <- member message "error" ;;
    update (fun this => set_currentErrors ((currentErrors this ++ [e])%list) this) ;;
    refresh
  else
    t' <- member message "type" ;;
    if strict_equals_string t' "suggestions_ready" then
      s <- member message "suggestions" ;;
      update (set_currentSuggestions (or_else s (JArr []))) ;;
      refresh
    else
      ret tt.

(** The ['open'] callback. *)
Definition on_open : M unit :=
  update (set_isConnected true) ;;
  emit (showInformationMessage "Connected to Bugfree system") ;;
  refresh.

(** The ['message'] callback; [data] is [data.toString()]. *)
Definition on_message (data : string) : M unit :=
  try_catch
    (message <- match JSON_parse data with
                | Some v => ret v
                | None => throw SyntaxError
                end ;;
     handleBugfreeMessage message)
    (fun e => emit (console_error "Error parsing Bugfree message:" e)).

(** The ['close'] callback. *)
Definition on_close : M unit :=
  update (set_isConnected false) ;;
  emit (showWarningMessage "Disconnected from Bugfree system") ;;
  refresh.

(** The ['error'] callback. *)
Definition on_error (e : error) : M unit :=
  emit (console_error "WebSocket error:" e) ;;
  emit (showErrorMessage "Failed to connect to Bugfree system").

(** [new WebSocket(url)] *)
Definition new_WebSocket (u : string) : M WebSocket :=
  if ws_accepts u then emit (ws_new u) ;; ret {| url := u |}
  else throw SyntaxError.

(** [connectToBugfree()]; the four callbacks it registers on the new
    socket are [on_open], [on_message], [on_close] and [on_error]. *)
Definition connectToBugfree (config : Configuration) : M unit :=
  let host := get (serverHost config) "localhost" in
  let port := get (serverPort config) 8003%Z in
  try_catch
    (sock <- new_WebSocket ("ws://" ++ host ++ ":" ++ string_of_Z port) ;;
     update (set_ws (Some sock)))
    (fun e => emit (console_error "Error connecting to Bugfree:" e)).

(** The field initialisers of the class. *)
Definition fresh : BugfreeProvider :=
  {| currentErrors := [];
     currentSuggestions := JArr [];
     ws := None;
     isConnected := false |}.

(** [new BugfreeProvider()] *)
Definition constructor (config : Configuration) : BugfreeProvider :=
  after (connectToBugfree config fresh).

(** [this.ws && this.isConnected] *)
Definition connection_open (this : BugfreeProvider) : bool :=
  match ws this with
  | Some _ => isConnected this
  | None => false
  end.

(** [startSystem()] *)
Definition startSystem : M unit :=
  open <- read connection_open ;;
  if open then
    emit (ws_send start_system) ;;
    emit (showInformationMessage "Starting Bugfree system...")
  else
    emit (showErrorMessage "Not connected to Bugfree system").

(** [stopSystem()] *)
Definition stopSystem : M unit :=
  open <- read connection_open ;;
  if open then
    emit (ws_send stop_system) ;;
    emit (showInformationMessage "Stopping Bugfree system...")
  else
    ret tt.

(** [applyFix(suggestion)] *)
Definition applyFix (suggestion : FixSuggestion) : M unit :=
  open <- read connection_open ;;
  if open then
    emit (ws_send (apply_fix suggestion)) ;;
    emit (showInformationMessage ("Applying fix: " ++ title suggestion))
  else
    ret tt.

(** [name="text"], as it appears inside the HTML templates. *)
Definition attr (name text : string) : string :=
  name ++ "=" ++ dq ++ text ++ dq.

(** [suggestion.explanation || 'No explanation available'] *)
Definition explanation_text (suggestion : FixSuggestion) : string :=
  match explanation suggestion with
  | Some text => if String.eqb text EmptyString then "No explanation available" else text
  | None => "No explanation available"
  end.

(** [Math.round(suggestion.confidence_score * 100)], printed. *)
Definition percent (suggestion : FixSuggestion) : string :=
  number_text (Math_round (number_mul (confidence_score suggestion) (number_of_Z 100))).

(** The template literal assigned to [panel.webview.html] in [explainFix]. *)
Definition explanation_html (suggestion : FixSuggestion) : string :=
  nl ++
  ln 12 "<!DOCTYPE html>" ++
  ln 12 "<html>" ++
  ln 12 "<head>" ++
  ln 16 ("<meta " ++ attr "charset" "UTF-8" ++ ">") ++
  ln 16 ("<meta " ++ attr "name" "viewport" ++ " " ++
         attr "content" "width=device-width, initial-scale=1.0" ++ ">") ++
  ln 16 "<title>Fix Explanation</title>" ++
  ln 16 "<style>" ++
  ln 20 "body { font-family: -apple-system, BlinkMacSystemFont, 'Segoe UI', sans-serif; padding: 20px; }" ++
  ln 20 ".title { font-size: 18px; font-weight: bold; margin-bottom: 10px; }" ++
  ln 20 ".description { margin-bottom: 15px; color: #666; }" ++
  ln 20 ".code { background: #f5f5f5; padding: 10px; border-radius: 4px; font-family: 'Courier New', monospace; }" ++
  ln 20 ".explanation { margin-top: 15px; }" ++
  ln 20 ".agent { color: #007acc; font-weight: bold; }" ++
  ln 20 ".confidence { color: #28a745; font-weight: bold; }" ++
  ln 16 "</style>" ++
  ln 12 "</head>" ++
  ln 12 "<body>" ++
  ln 16 ("<div " ++ attr "class" "title" ++ ">" ++ title suggestion ++ "</div>") ++
  ln 16 ("<div " ++ attr "class" "description" ++ ">" ++ description suggestion ++ "</div>") ++
  ln 16 ("<div " ++ attr "class" "code" ++ ">" ++ code_snippet suggestion ++ "</div>") ++
  ln 16 ("<div " ++ attr "class" "explanation" ++ ">" ++ explanation_text suggestion ++ "</div>") ++
  ln 16 ("<div " ++ attr "style" "margin-top: 20px;" ++ ">") ++
  ln 20 ("<span " ++ attr "class" "agent" ++ ">Agent: " ++ agent_source suggestion ++ "</span> | ") ++
  ln 20 ("<span " ++ attr "class" "confidence" ++ ">Confidence: " ++ percent suggestion ++ "%</span>") ++
  ln 16 "</div>" ++
  ln 12 "</body>" ++
  ln 12 "</html>" ++
  spaces 8.

(** [explainFix(suggestion)] *)
Definition explainFix (suggestion : FixSuggestion) : M unit :=
  emit (createWebviewPanel "bugfreeExplanation"
          ("Fix Explanation: " ++ title suggestion)
          (explanation_html suggestion)).

(** [dispose()] *)
Definition dispose : M unit :=
  w <- read (fun this => ws this) ;;
  match w with
  | Some _ => emit ws_close
  | None => ret tt
  end.

(** ** The commands registered by [activate] *)

(** [bugfree.analyzeError]; [editor] is [vscode.window.activeTextEditor]. *)
Definition analyzeError (editor : option TextEditor) : M unit :=
  match editor with
  | Some ed =>
      let line := (active_line ed + 1)%Z in
      let file := fileName ed in
      open <- read connection_open ;;
      if open then
        emit (ws_send (analyze_error file line)) ;;
        emit (showInformationMessage "Analyzing error...")
      else
        emit (showErrorMessage "Not connected to Bugfree system")
  | None => emit (showErrorMessage "No active editor")
  end.

(** [bugfree.ignoreError] *)
Definition ignoreError (e : ErrorContext) : M unit :=
  emit (showInformationMessage ("Ignored error: " ++ error_message e)).

(** The template literal of [bugfree.showErrorDetails]. *)
Definition error_details_html (e : ErrorContext) : string :=
  nl ++
  ln 16 "<!DOCTYPE html>" ++
  ln 16 "<html>" ++
  ln 16 "<head>" ++
  ln 20 ("<meta " ++ attr "charset" "UTF-8" ++ ">") ++
  ln 20 "<title>Error Details</title>" ++
  ln 20 "<style>" ++
  ln 24 "body { font-family: -apple-system, BlinkMacSystemFont, 'Segoe UI', sans-serif; padding: 20px; }" ++
  ln 24 ".error-type { color: #dc3545; font-weight: bold; font-size: 18px; }" ++
  ln 24 ".error-message { margin: 10px 0; padding: 10px; background: #f8d7da; border-radius: 4px; }" ++
  ln 24 ".file-info { color: #007acc; margin: 10px 0; }" ++
  ln 24 ".timestamp { color: #666; font-size: 12px; }" ++
  ln 20 "</style>" ++
  ln 16 "</head>" ++
  ln 16 "<body>" ++
  ln 20 ("<div " ++ attr "class" "error-type" ++ ">" ++ error_type e ++ "</div>") ++
  ln 20 ("<div " ++ attr "class" "error-message" ++ ">" ++ error_message e ++ "</div>") ++
  ln 20 ("<div " ++ attr "class" "file-info" ++ ">File: " ++ file_path e ++ ":" ++
         number_text (line_number e) ++ "</div>") ++
  ln 20 ("<div " ++ attr "class" "timestamp" ++ ">Detected: " ++ timestamp e ++ "</div>") ++
  ln 16 "</body>" ++
  ln 16 "</html>" ++
  spaces 12.

(** [bugfree.showErrorDetails] *)
Definition showErrorDetails (e : ErrorContext) : M unit :=
  emit (createWebviewPanel "bugfreeErrorDetails"
          ("Error Details: " ++ error_type e)
          (error_details_html e)).

(** [bugfree.showSuggestionDetails] *)
Definition showSuggestionDetails (suggestion : FixSuggestion) : M unit :=
  explainFix suggestion.

(** Everything the host can ask of the component once it is activated: the
    four socket callbacks, the eight commands (the auto-start timer runs
    [startSystem]), and disposal. *)
Inductive operation : Type :=
| socket_open
| socket_message (data : string)
| socket_close
| socket_error (e : error)
| command_startSystem
| command_stopSystem
| command_analyzeError (editor : option TextEditor)
| command_applyFix (suggestion : FixSuggestion)
| command_explainFix (suggestion : FixSuggestion)
| command_ignoreError (e : ErrorContext)
| command_showErrorDetails (e : ErrorContext)
| command_showSuggestionDetails (suggestion : FixSuggestion)
| subscription_dispose.

Definition perform (op : operation) : M unit :=
  match op with
  | socket_open => on_open
  | socket_message data => on_message data
  | socket_close => on_close
  | socket_error e => on_error e
  | command_startSystem => startSystem
  | command_stopSystem => stopSystem
  | command_analyzeError editor => analyzeError editor
  | command_applyFix suggestion => applyFix suggestion
  | command_explainFix suggestion => explainFix suggestion
  | command_ignoreError e => ignoreError e
  | command_showErrorDetails e => showErrorDetails e
  | command_showSuggestionDetails suggestion => showSuggestionDetails suggestion
  | subscription_dispose => dispose
  end.

(** The event loop: operations run one after the other, each to completion,
    on the provider the previous one left. *)
Fixpoint run (ops : list operation) (this : BugfreeProvider) : BugfreeProvider * list event :=
  match ops with
  | [] => (this, [])
  | op :: rest =>
      let r := perform op this in
      let r' := run rest (after r) in
      (fst r', (calls r ++ snd r')%list)
  end.

(** ** Observations on the recorded calls *)

(** A user-visible notice. *)
Definition is_notice (ev : event) : bool :=
  match ev with
  | showInformationMessage _ | showWarningMessage _ | showErrorMessage _ => true
  | _ => false
  end.

(** A write on the socket. *)
Definition is_network_write (ev : event) : bool :=
  match ev with
  | ws_send _ => true
  | _ => false
  end.

(** Anything that reaches the user interface: a notice, a refresh of the
    tree views, a webview panel. *)
Definition is_ui (ev : event) : bool :=
  match ev with
  | showInformationMessage _ | showWarningMessage _ | showErrorMessage _ => true
  | fire => true
  | createWebviewPanel _ _ _ => true
  | _ => false
  end.

Definition notices (log : list event) : nat :=
  length (filter is_notice log).

Definition network_writes (log : list event) : nat :=
  length (filter is_network_write log).

Definition ui_calls (log : list event) : nat :=
  length (filter is_ui log).

(** The type tag of a message, when it has one. *)
Definition tag (message : value) : option string :=
  match message with
  | JObj props =>
      match lookup "type" props with
      | Some (JStr s) => Some s
      | _ => None
      end
  | _ => None
  end.

(** What a message carries under [key]: the member read by [message.key],
    [undefined] when there is none. *)
Definition carried (key : string) (message : value) : value :=
  match message with
  | JObj props => get (lookup key props) JUndefined
  | _ => JUndefined
  end.

(** [text] occurs somewhere inside [whole]. *)
Definition occurs_in (text whole : string) : Prop :=
  exists before rest, whole = before ++ text ++ rest.

(** The URL a provider asks the socket library for, given the host setting
    and the port printed in decimal. *)
Definition address (host : option string) (port : string) : string :=
  "ws://" ++ get host "localhost" ++ ":" ++ port.

(** ** The compiled output, [out/extension.js] *)

(** [handleBugfreeMessage(message)] of the compiled class. *)
Definition out_handleBugfreeMessage (message : value) : M unit :=
  t <- member message "type" ;;
  if strict_equals_string t "error_detected" then
    e <- member message "error" ;;
    update (fun this => set_currentErrors ((currentErrors this ++ [e])%list) this) ;;
    refresh
  else
    t' <- member message "type" ;;
    if strict_equals_string t' "suggestions_ready" then
      s <- member message "suggestions" ;;
      update (set_currentSuggestions (or_else s (JArr []))) ;;
      refresh
    else
      ret tt.

Definition out_on_open : M unit :=
  update (set_isConnected true) ;;
  emit (showInformationMessage "Connected to Bugfree system") ;;
  refresh.

Definition out_on_message (data : string) : M unit :=
  try_catch
    (message <- match JSON_parse data with
                | Some v => ret v
                | None => throw SyntaxError
                end ;;
     out_handleBugfreeMessage message)
    (fun e => emit (console_error "Error parsing Bugfree message:" e)).

Definition out_on_close : M unit :=
  update (set_isConnected false) ;;
  emit (showWarningMessage "Disconnected from Bugfree system") ;;
  refresh.

Definition out_on_error (e : error) : M unit :=
  emit (console_error "WebSocket error:" e) ;;
  emit (showErrorMessage "Failed to connect to Bugfree system").

(** [connectToBugfree()] of the compiled class. *)
Definition out_connectToBugfree (config : Configuration) : M unit :=
  let host := get (serverHost config) "localhost" in
  let port := get (serverPort config) 8000%Z in
  try_catch
    (sock <- new_WebSocket ("ws://" ++ host ++ ":" ++ string_of_Z port) ;;
     update (set_ws (Some sock)))
    (fun e => emit (console_error "Error connecting to Bugfree:" e)).


(** ** Summaries of operations, for stating what a run does *)

(** The operations that come from the socket rather than from a command. *)
Definition is_socket_event (op : operation) : bool :=
  match op with
  | socket_open | socket_message _ | socket_close | socket_error _ => true
  | _ => false
  end.

(** The message an operation hands to [ws.send] when its guard lets it:
    [None] for the operations whose code has no [send]. *)
Definition payload (op : operation) : option (outbound number) :=
  match op with
  | command_startSystem => Some start_system
  | command_stopSystem => Some stop_system
  | command_applyFix suggestion => Some (apply_fix suggestion)
  | command_analyzeError (Some ed) =>
      Some (analyze_error (fileName ed) (active_line ed + 1)%Z)
  | _ => None
  end.

(** The connected flag a sequence of operations leads to: the one set by
    its last open or close event, the initial one when it has none. *)
Fixpoint connected_after (ops : list operation) (initially : bool) : bool :=
  match ops with
  | [] => initially
  | socket_open :: rest => connected_after rest true
  | socket_close :: rest => connected_after rest false
  | _ :: rest => connected_after rest initially
  end.

(** A message on which [handleBugfreeMessage] takes one of its branches. *)
Definition recognized (message : value) : bool :=
  match tag message with
  | Some name =>
      String.eqb name "error_detected" || String.eqb name "suggestions_ready"
  | None => false
  end.

(** An operation that delivers a message tagged [suggestions_ready]. *)
Definition delivers_suggestions (op : operation) : bool :=
  match op with
  | socket_message data =>
      match JSON_parse data with
      | Some message =>
          match tag message with
          | Some name => String.eqb name "suggestions_ready"
          | None => false
          end
      | None => false
      end
  | _ => false
  end.

(** An operation that is the open event. *)
Definition is_open_event (op : operation) : bool :=
  match op with
  | socket_open => true
  | _ => false
  end.

(** The socket was closed by the code ([ws.close()]). *)
Definition is_socket_close_call (ev : event) : bool :=
  match ev with
  | ws_close => true
  | _ => false
  end.

(** ** Tree rendering *)

(** ToString, as a template literal applies it, on the values [JSON.parse]
    builds: an array prints its elements joined by commas, with nothing for
    [null] and [undefined] elements; an object prints as a fixed text. *)
Fixpoint ToString (v : value) : string :=
  match v with
  | JUndefined => "undefined"
  | JNull => "null"
  | JBool b => if b then "true" else "false"
  | JNum n => number_text n
  | JStr s => s
  | JArr items =>
      (fix join (l : list value) : string :=
         match l with
         | [] => EmptyString
         | x :: rest =>
             let piece :=
               match x with
               | JUndefined | JNull => EmptyString
               | _ => ToString x
               end in
             match rest with
             | [] => piece
             | _ :: _ => piece ++ "," ++ join rest
             end
         end) items
  | JObj _ => "[object Object]"
  end.

(** ToNumber on the same values. *)
Definition ToNumber (v : value) : number :=
  match v with
  | JUndefined => NaN
  | JNull => number_of_Z 0%Z
  | JBool b => number_of_Z (if b then 1%Z else 0%Z)
  | JNum n => n
  | JStr s => StringToNumber s
  | JArr _ | JObj _ => StringToNumber (ToString v)
  end.

(** [v > 0] *)
Definition greater_than_zero (v : value) : bool :=
  number_positive (ToNumber v).

(** [array.length] of a real array. *)
Definition array_length (l : list value) : value :=
  JNum (number_of_Z (Z.of_nat (length l))).

(** [v.length]: a TypeError on [null] and [undefined], the length of an
    array or a string, the own member of an object, [undefined] on a
    boolean or a number. *)
Definition length_of (v : value) : M value :=
  match v with
  | JUndefined | JNull => throw TypeError
  | JArr items => ret (array_length items)
  | JStr s => ret (JNum (String_length s))
  | JObj props => ret (carried "length" (JObj props))
  | JBool _ | JNum _ => ret JUndefined
  end.

(** [v.substring(0, 50)]: the method exists on strings only, and nothing
    [JSON.parse] builds can be called, so every other value throws. *)
Definition substring_0_50 (v : value) : M value :=
  match v with
  | JStr s => ret (JStr (String_substring s 0%Z 50%Z))
  | _ => throw TypeError
  end.

(** [array.map(callback)] on a real array, with a callback that may throw. *)
Fixpoint map_array {A B : Type} (callback : A -> M B) (l : list A) : M (list B) :=
  match l with
  | [] => ret []
  | x :: rest =>
      y <- callback x ;;
      ys <- map_array callback rest ;;
      ret (y :: ys)
  end.

(** [v.map(callback)]: only an array has the method. *)
Definition map_of {B : Type} (v : value) (callback : value -> M B) : M (list B) :=
  match v with
  | JArr items => map_array callback items
  | _ => throw TypeError
  end.

(** [element.contextValue === 'literal'] *)
Definition context_is (element : BugfreeItem) (literal : string) : bool :=
  match contextValue element with
  | Some s => String.eqb s literal
  | None => false
  end.

(** [new BugfreeItem(label, collapsibleState)] *)
Definition new_BugfreeItem (text : string) (state : TreeItemCollapsibleState.t) : BugfreeItem :=
  {| label := text;
     collapsibleState := state;
     tooltip := None;
     contextValue := None;
     item_command := None |}.

Definition with_tooltip (text : string) (item : BugfreeItem) : BugfreeItem :=
  {| label := label item;
     collapsibleState := collapsibleState item;
     tooltip := Some text;
     contextValue := contextValue item;
     item_command := item_command item |}.

Definition with_contextValue (text : string) (item : BugfreeItem) : BugfreeItem :=
  {| label := label item;
     collapsibleState := collapsibleState item;
     tooltip := tooltip item;
     contextValue := Some text;
     item_command := item_command item |}.

Definition with_command (c : Command) (item : BugfreeItem) : BugfreeItem :=
  {| label := label item;
     collapsibleState := collapsibleState item;
     tooltip := tooltip item;
     contextValue := contextValue item;
     item_command := Some c |}.

(** The callback of [this.currentErrors.map] in [getChildren]. *)
Definition error_item (e : value) : M BugfreeItem :=
  type_ <- member e "error_type" ;;
  message <- member e "error_message" ;;
  head <- substring_0_50 message ;;
  let errorItem :=
    new_BugfreeItem (ToString type_ ++ ": " ++ ToString head ++ "...")
      TreeItemCollapsibleState.None in
  path <- member e "file_path" ;;
  line <- member e "line_number" ;;
  message' <- member e "error_message" ;;
  ret (with_command
         {| command := "bugfree.showErrorDetails";
            command_title := "Show Error Details";
            arguments := [e] |}
         (with_contextValue "error"
            (with_tooltip
               (ToString path ++ ":" ++ ToString line ++ nl ++ ToString message')
               errorItem))).

(** The callback of [this.currentSuggestions.map] in [getChildren]. *)
Definition suggestion_item (suggestion : value) : M BugfreeItem :=
  title_ <- member suggestion "title" ;;
  score <- member suggestion "confidence_score" ;;
  let suggestionItem :=
    new_BugfreeItem
      (ToString title_ ++ " (" ++
       number_text (Math_round (number_mul (ToNumber score) (number_of_Z 100))) ++
       "%)")
      TreeItemCollapsibleState.None in
  description_ <- member suggestion "description" ;;
  agent <- member suggestion "agent_source" ;;
  ret (with_command
         {| command := "bugfree.showSuggestionDetails";
            command_title := "Show Suggestion Details";
            arguments := [suggestion] |}
         (with_contextValue "suggestion"
            (with_tooltip
               (ToString description_ ++ nl ++ nl ++ "Agent: " ++ ToString agent)
               suggestionItem))).

(** [getChildren(element?)]; the result is what the returned promise
    resolves to, and a throw happens before any promise is made. *)
Definition getChildren (element : option BugfreeItem) : M (list BugfreeItem) :=
  match element with
  | None =>
      connected <- read (fun this => isConnected this) ;;
      let statusItem :=
        with_tooltip
          (if connected then "Connected to Bugfree system"
           else "Not connected to Bugfree system")
          (new_BugfreeItem
             (if connected then "🟢 Connected" else "🔴 Disconnected")
             TreeItemCollapsibleState.None) in
      let items := [statusItem] in
      errors <- read (fun this => currentErrors this) ;;
      let items :=
        if greater_than_zero (array_length errors) then
          (items ++
           [with_contextValue "errors"
              (new_BugfreeItem
                 ("🐛 Current Errors (" ++ ToString (array_length errors) ++ ")")
                 TreeItemCollapsibleState.Collapsed)])%list
        else items in
      suggestions <- read (fun this => currentSuggestions this) ;;
      count <- length_of suggestions ;;
      if greater_than_zero count then
        count' <- length_of suggestions ;;
        ret (items ++
             [with_contextValue "suggestions"
                (new_BugfreeItem
                   ("💡 Fix Suggestions (" ++ ToString count' ++ ")")
                   TreeItemCollapsibleState.Collapsed)])%list
      else
        ret items
  | Some node =>
      if context_is node "errors" then
        errors <- read (fun this => currentErrors this) ;;
        map_array error_item errors
      else if context_is node "suggestions" then
        suggestions <- read (fun this => currentSuggestions this) ;;
        map_of suggestions suggestion_item
      else
        ret []
  end.

(** [getTreeItem(element)] *)
Definition getTreeItem (element : BugfreeItem) : BugfreeItem :=
  element.

(** What selecting an item passes to its command. *)
Definition item_arguments (item : BugfreeItem) : list value :=
  match item_command item with
  | Some c => arguments c
  | None => []
  end.

(** A stored error the errors node can render: an object whose
    [error_message] member is a string. *)
Definition renderable_error (e : value) : bool :=
  match e with
  | JObj props =>
      match lookup "error_message" props with
      | Some (JStr _) => true
      | _ => false
      end
  | _ => false
  end.

(** A value members can be read from: anything but [null] and [undefined]. *)
Definition has_members (v : value) : bool :=
  match v with
  | JUndefined | JNull => false
  | _ => true
  end.

Definition is_array (v : value) : bool :=
  match v with
  | JArr _ => true
  | _ => false
  end.

(** A computation that only reads: it returns the provider it was given
    and calls nothing, also when it throws. *)
Definition reads_only {A : Type} (c : M A) : Prop :=
  forall this, after (c this) = this /\ calls (c this) = [].

(** ** Inbound messages *)

Lemma tag_inv (message : value) (name : string) :
  tag message = Some name ->
  exists props, message = JObj props /\ lookup "type" props = Some (JStr name).
Proof.
  destruct message as [ | | b | n | s | items | props]; simpl; try discriminate.
  destruct (lookup "type" props) as [v|] eqn:Etype; try discriminate.
  destruct v; try discriminate.
  intros H; injection H as ->. exists props. split; [reflexivity | exact Etype].
Qed.

Lemma bind_ret {A B : Type} (a : A) (k : A -> M B) (this : BugfreeProvider) :
  bind (ret a) k this = k a this.
Proof.
  unfold bind, ret. destruct (k a this) as [[r this'] log]. reflexivity.
Qed.

Lemma member_object (props : list (string * value)) (key : string) :
  member (JObj props) key = ret (carried key (JObj props)).
Proof.
  unfold member, carried, get. destruct (lookup key props); reflexivity.
Qed.

(** The comparison [message.type === 'name'] succeeds exactly on the
    messages tagged [name]. *)
Lemma strict_equals_tag (props : list (string * value)) (name : string) :
  strict_equals_string (carried "type" (JObj props)) name = true <->
  tag (JObj props) = Some name.
Proof.
  unfold carried, tag, get, strict_equals_string.
  destruct (lookup "type" props) as [v|]; [ | split; discriminate].
  destruct v as [ | | b | n | s | items | props']; try (split; discriminate).
  rewrite String.eqb_eq. split; [intros -> | intros H; injection H as ->]; reflexivity.
Qed.

(** On a message tagged [error_detected] the handler pushes the carried
    error and refreshes. *)
Lemma handle_error_detected (message : value) (this : BugfreeProvider) :
  tag message = Some "error_detected" ->
  handleBugfreeMessage message this =
    (Returned tt,
     set_currentErrors (currentErrors this ++ [carried "error" message])%list this,
     [fire]).
Proof.
  intros Htag. destruct (tag_inv _ _ Htag) as (props & -> & _).
  unfold handleBugfreeMessage.
  rewrite member_object, bind_ret.
  rewrite (proj2 (strict_equals_tag props _) Htag).
  rewrite member_object, bind_ret.
  reflexivity.
Qed.

(** On a message tagged [suggestions_ready] the handler assigns the carried
    suggestions, or the empty array when they are falsy, and refreshes. *)
Lemma handle_suggestions_ready (message : value) (this : BugfreeProvider) :
  tag message = Some "suggestions_ready" ->
  handleBugfreeMessage message this =
    (Returned tt,
     set_currentSuggestions (or_else (carried "suggestions" message) (JArr [])) this,
     [fire]).
Proof.
  intros Htag. destruct (tag_inv _ _ Htag) as (props & -> & _).
  unfold handleBugfreeMessage.
  rewrite member_object, bind_ret.
  destruct (strict_equals_string (carried "type" (JObj props)) "error_detected") eqn:E1.
  { apply strict_equals_tag in E1. rewrite Htag in E1. discriminate. }
  rewrite bind_ret.
  rewrite (proj2 (strict_equals_tag props _) Htag).
  rewrite member_object, bind_ret.
  reflexivity.
Qed.

(** On any other value the handler changes nothing and calls nothing; it
    throws exactly on [null] and [undefined]. *)
Lemma handle_other (message : value) (this : BugfreeProvider) :
  tag message <> Some "error_detected" ->
  tag message <> Some "suggestions_ready" ->
  after (handleBugfreeMessage message this) = this /\
  calls (handleBugfreeMessage message this) = [].
Proof.
  intros Hne1 Hne2.
  destruct message as [ | | b | n | s | items | props];
    try (split; reflexivity).
  unfold handleBugfreeMessage.
  rewrite member_object, bind_ret.
  destruct (strict_equals_string (carried "type" (JObj props)) "error_detected") eqn:E1.
  { apply strict_equals_tag in E1. contradiction. }
  rewrite bind_ret.
  destruct (strict_equals_string (carried "type" (JObj props)) "suggestions_ready") eqn:E2.
  { apply strict_equals_tag in E2. contradiction. }
  split; reflexivity.
Qed.

(** C2. Whatever the provider holds, a message tagged [suggestions_ready]
    that carries a suggestions array is handled by replacing the suggestion
    sequence with exactly that array: nothing of the previous sequence
    remains, the handler returns normally, the other fields keep their
    values and the tree views are refreshed once. *)
Theorem suggestions_ready_replaces
  (this : BugfreeProvider) (message : value) (payload : list value) :
  tag message = Some "suggestions_ready" ->
  carried "suggestions" message = JArr payload ->
  result (handleBugfreeMessage message this) = Returned tt /\
  currentSuggestions (after (handleBugfreeMessage message this)) = JArr payload /\
  currentErrors (after (handleBugfreeMessage message this)) = currentErrors this /\
  ws (after (handleBugfreeMessage message this)) = ws this /\
  isConnected (after (handleBugfreeMessage message this)) = isConnected this /\
  calls (handleBugfreeMessage message this) = [fire].
Proof.
  intros Htag Hpayload.
  rewrite (handle_suggestions_ready _ this Htag), Hpayload.
  repeat split.
Qed.

(** C3. Whatever the provider holds, a message tagged [error_detected] is
    handled by a strict append: the error sequence grows by exactly one,
    every earlier entry keeps its index and its value, and the entry at the
    new last index is the error the message carries. *)
Theorem error_detected_appends (this : BugfreeProvider) (message : value) :
  tag message = Some "error_detected" ->
  result (handleBugfreeMessage message this) = Returned tt /\
  length (currentErrors (after (handleBugfreeMessage message this)))
    = S (length (currentErrors this)) /\
  (forall i, (i < length (currentErrors this))%nat ->
     nth_error (currentErrors (after (handleBugfreeMessage message this))) i
       = nth_error (currentErrors this) i) /\
  nth_error (currentErrors (after (handleBugfreeMessage message this)))
            (length (currentErrors this))
    = Some (carried "error" message).
Proof.
  intros Htag. rewrite (handle_error_detected _ this Htag).
  unfold result, after; cbn.
  repeat split.
  - rewrite length_app; cbn. lia.
  - intros i Hi. apply nth_error_app1. exact Hi.
  - rewrite nth_error_app2 by lia. rewrite Nat.sub_diag. reflexivity.
Qed.

(** C10. A message tagged [suggestions_ready] whose suggestions member is
    absent, [null] or otherwise falsy empties the suggestion sequence: the
    handler returns normally and the sequence afterwards is the empty
    array, whatever it held before. *)
Theorem suggestions_ready_without_array (this : BugfreeProvider) (message : value) :
  tag message = Some "suggestions_ready" ->
  truthy (carried "suggestions" message) = false ->
  result (handleBugfreeMessage message this) = Returned tt /\
  currentSuggestions (after (handleBugfreeMessage message this)) = JArr [].
Proof.
  intros Htag Hfalsy.
  rewrite (handle_suggestions_ready _ this Htag).
  unfold result, after, or_else; cbn. rewrite Hfalsy.
  split; reflexivity.
Qed.

(** C4. A raw payload that [JSON.parse] rejects leaves the provider as it
    was, both sequences included; the callback returns normally and its
    only call is one diagnostic on the console. *)
Theorem malformed_payload_is_logged_only (this : BugfreeProvider) (data : string) :
  JSON_parse data = None ->
  on_message data this =
    (Returned tt, this, [console_error "Error parsing Bugfree message:" SyntaxError]).
Proof.
  intros Hparse. unfold on_message, try_catch, bind. rewrite Hparse. reflexivity.
Qed.

(** C5. A parsed message whose type tag is neither [error_detected] nor
    [suggestions_ready] is ignored: the handler leaves the provider (error
    sequence, suggestion sequence, connected flag) as it was and makes no
    call at all, and the message callback around it makes no call that
    reaches the user interface. *)
Theorem unrecognized_tag_is_ignored
  (this : BugfreeProvider) (data : string) (message : value) :
  JSON_parse data = Some message ->
  tag message <> Some "error_detected" ->
  tag message <> Some "suggestions_ready" ->
  (currentErrors (after (handleBugfreeMessage message this)) = currentErrors this /\
   currentSuggestions (after (handleBugfreeMessage message this)) = currentSuggestions this /\
   isConnected (after (handleBugfreeMessage message this)) = isConnected this /\
   calls (handleBugfreeMessage message this) = []) /\
  (after (on_message data this) = this /\
   result (on_message data this) = Returned tt /\
   ui_calls (calls (on_message data this)) = 0%nat).
Proof.
  intros Hparse Hne1 Hne2.
  destruct (handle_other message this Hne1 Hne2) as [Hafter Hcalls].
  split.
  - rewrite Hafter, Hcalls. repeat split.
  - unfold on_message, try_catch. rewrite Hparse, bind_ret.
    destruct (handleBugfreeMessage message this) as [[r this'] log] eqn:Hrun.
    unfold after, calls in Hafter, Hcalls; cbn in Hafter, Hcalls. subst this' log.
    destruct r as [[] | e]; (split; [reflexivity | split; reflexivity]).
Qed.


(** ** Outbound actions *)

(** C1. With the connection not open, none of the three actions writes to
    the socket, but only [startSystem] shows a notice (exactly one):
    [stopSystem] and [applyFix] return without any call at all. *)
Theorem actions_while_disconnected (this : BugfreeProvider) (suggestion : FixSuggestion) :
  connection_open this = false ->
  (network_writes (calls (startSystem this)) = 0%nat /\
   notices (calls (startSystem this)) = 1%nat) /\
  (network_writes (calls (stopSystem this)) = 0%nat /\
   notices (calls (stopSystem this)) = 0%nat) /\
  (network_writes (calls (applyFix suggestion this)) = 0%nat /\
   notices (calls (applyFix suggestion this)) = 0%nat).
Proof.
  intros Hclosed.
  unfold startSystem, stopSystem, applyFix, bind, read.
  rewrite Hclosed.
  repeat split.
Qed.

(** ** Connection events *)

(** C6, as the code has it. The open callback sets the connected flag,
    shows a notice and refreshes the tree views; the close callback clears
    the flag, shows a warning and refreshes; the error callback leaves the
    provider as it is, flag included, writes to the console and shows an
    error notice, without a refresh. *)
Theorem connection_callbacks (this : BugfreeProvider) (e : error) :
  (after (on_open this) = set_isConnected true this /\
   calls (on_open this) =
     [showInformationMessage "Connected to Bugfree system"; fire]) /\
  (after (on_close this) = set_isConnected false this /\
   calls (on_close this) =
     [showWarningMessage "Disconnected from Bugfree system"; fire]) /\
  (after (on_error e this) = this /\
   calls (on_error e this) =
     [console_error "WebSocket error:" e;
      showErrorMessage "Failed to connect to Bugfree system"]).
Proof.
  repeat split.
Qed.

(** ** The explain action *)

Lemma append_assoc (a b c : string) : (a ++ b) ++ c = a ++ (b ++ c).
Proof.
  induction a as [ | ch a IH]; cbn; [reflexivity | rewrite IH; reflexivity].
Qed.

Lemma occurs_here (text rest : string) : occurs_in text (text ++ rest).
Proof.
  exists EmptyString, rest. reflexivity.
Qed.

Lemma occurs_skip (text a whole : string) :
  occurs_in text whole -> occurs_in text (a ++ whole).
Proof.
  intros (before & rest & ->). exists (a ++ before), rest.
  rewrite append_assoc. reflexivity.
Qed.

Lemma occurs_left (text whole b : string) :
  occurs_in text whole -> occurs_in text (whole ++ b).
Proof.
  intros (before & rest & ->). exists before, (rest ++ b).
  rewrite !append_assoc. reflexivity.
Qed.

(** C7. For every suggestion and every provider, the explain action sends
    nothing over the socket and leaves the provider as it was; its one call
    opens a webview panel whose document contains the explanation block
    with the suggestion's explanation text, and that text is
    [No explanation available] when the suggestion has no explanation. *)
Theorem explain_is_local
  (this : BugfreeProvider) (suggestion : FixSuggestion)
  (t d c a : string) (n : number) (first : ascii) (more : string) :
  after (explainFix suggestion this) = this /\
  result (explainFix suggestion this) = Returned tt /\
  network_writes (calls (explainFix suggestion this)) = 0%nat /\
  calls (explainFix suggestion this) =
    [createWebviewPanel "bugfreeExplanation"
       ("Fix Explanation: " ++ title suggestion)
       (explanation_html suggestion)] /\
  occurs_in ("<div " ++ attr "class" "explanation" ++ ">" ++
             explanation_text suggestion ++ "</div>")
            (explanation_html suggestion) /\
  explanation_text
    {| title := t; description := d; code_snippet := c; confidence_score := n;
       agent_source := a; explanation := None |}
    = "No explanation available" /\
  explanation_text
    {| title := t; description := d; code_snippet := c; confidence_score := n;
       agent_source := a; explanation := Some (String first more) |}
    = String first more.
Proof.
  repeat split.
  unfold explanation_html.
  do 21 apply occurs_skip.
  apply occurs_left. unfold ln. apply occurs_skip, occurs_here.
Qed.

(** ** Source and compiled output *)

Lemma append_inv_head (a b c : string) : a ++ b = a ++ c -> b = c.
Proof.
  induction a as [ | ch a IH]; cbn; intros H; [exact H | ].
  injection H as H. apply IH, H.
Qed.

Lemma connect_calls (u : string) (this : BugfreeProvider) :
  try_catch
    (sock <- new_WebSocket u ;; update (set_ws (Some sock)))
    (fun e => emit (console_error "Error connecting to Bugfree:" e)) this
  = if ws_accepts u
    then (Returned tt, set_ws (Some {| url := u |}) this, [ws_new u])
    else (Returned tt, this, [console_error "Error connecting to Bugfree:" SyntaxError]).
Proof.
  unfold try_catch, bind, new_WebSocket. destruct (ws_accepts u); reflexivity.
Qed.

(** C8. Given the same configuration with a port in it, the source and the
    compiled output open the connection identically; with no port
    configured the source asks for port 8003 and the compiled output for
    port 8000, two different addresses; both fall back to [localhost] for
    the host; and the four callbacks they register are the same. *)
Theorem source_and_compiled_output
  (host : option string) (port : Z) (auto : option bool) (this : BugfreeProvider)
  (data : string) (e : error) :
  connectToBugfree {| serverHost := host; serverPort := Some port; autoStart := auto |} this
    = out_connectToBugfree {| serverHost := host; serverPort := Some port; autoStart := auto |} this /\
  connectToBugfree {| serverHost := host; serverPort := None; autoStart := auto |} this
    = (if ws_accepts (address host "8003")
       then (Returned tt, set_ws (Some {| url := address host "8003" |}) this,
             [ws_new (address host "8003")])
       else (Returned tt, this,
             [console_error "Error connecting to Bugfree:" SyntaxError])) /\
  out_connectToBugfree {| serverHost := host; serverPort := None; autoStart := auto |} this
    = (if ws_accepts (address host "8000")
       then (Returned tt, set_ws (Some {| url := address host "8000" |}) this,
             [ws_new (address host "8000")])
       else (Returned tt, this,
             [console_error "Error connecting to Bugfree:" SyntaxError])) /\
  address host "8003" <> address host "8000" /\
  address None "8003" = "ws://localhost:8003" /\
  address None "8000" = "ws://localhost:8000" /\
  out_on_open this = on_open this /\
  out_on_message data this = on_message data this /\
  out_on_close this = on_close this /\
  out_on_error e this = on_error e this.
Proof.
  split; [reflexivity | ].
  split; [ unfold connectToBugfree; cbn [serverHost serverPort get];
           change (string_of_Z 8003) with "8003"; apply connect_calls | ].
  split; [ unfold out_connectToBugfree; cbn [serverHost serverPort get];
           change (string_of_Z 8000) with "8000"; apply connect_calls | ].
  split.
  { unfold address. intros H.
    apply append_inv_head in H. apply append_inv_head in H. discriminate H. }
  repeat split.
Qed.

(** ** The error sequence only grows *)

Lemma handle_keeps_errors (message : value) (this : BugfreeProvider) :
  exists added,
    currentErrors (after (handleBugfreeMessage message this))
      = (currentErrors this ++ added)%list.
Proof.
  destruct (tag message) as [name | ] eqn:Htag.
  - destruct (String.eqb_spec name "error_detected") as [-> | Hne1].
    + rewrite (handle_error_detected _ this Htag).
      exists [carried "error" message]. reflexivity.
    + destruct (String.eqb_spec name "suggestions_ready") as [-> | Hne2].
      * rewrite (handle_suggestions_ready _ this Htag).
        exists []. cbn. rewrite app_nil_r. reflexivity.
      * destruct (handle_other message this) as [Hafter _];
          [ rewrite Htag; congruence | rewrite Htag; congruence | ].
        rewrite Hafter. exists []. rewrite app_nil_r. reflexivity.
  - destruct (handle_other message this) as [Hafter _];
      [ rewrite Htag; discriminate | rewrite Htag; discriminate | ].
    rewrite Hafter. exists []. rewrite app_nil_r. reflexivity.
Qed.

Lemma on_message_keeps_errors (data : string) (this : BugfreeProvider) :
  result (on_message data this) = Returned tt /\
  exists added,
    currentErrors (after (on_message data this)) = (currentErrors this ++ added)%list.
Proof.
  unfold on_message, try_catch.
  destruct (JSON_parse data) as [message | ].
  - rewrite bind_ret.
    destruct (handle_keeps_errors message this) as [added Hadded].
    destruct (handleBugfreeMessage message this) as [[r this'] log].
    unfold after in Hadded; cbn in Hadded.
    destruct r as [[] | e]; (split; [reflexivity | exists added; exact Hadded]).
  - split; [reflexivity | ]. exists []. cbn. rewrite app_nil_r. reflexivity.
Qed.

(** No operation throws into the event loop, and every operation leaves the
    stored errors in place, adding at most at the end. *)
Lemma perform_keeps_errors (op : operation) (this : BugfreeProvider) :
  result (perform op this) = Returned tt /\
  exists added,
    currentErrors (after (perform op this)) = (currentErrors this ++ added)%list.
Proof.
  destruct op; cbn [perform];
    try apply on_message_keeps_errors;
    try (split; [reflexivity | exists []; cbn; rewrite app_nil_r; reflexivity]).
  - unfold startSystem, bind, read. destruct (connection_open this);
      (split; [reflexivity | exists []; cbn; rewrite app_nil_r; reflexivity]).
  - unfold stopSystem, bind, read. destruct (connection_open this);
      (split; [reflexivity | exists []; cbn; rewrite app_nil_r; reflexivity]).
  - unfold analyzeError, bind, read. destruct editor as [ed | ];
      [destruct (connection_open this) | ];
      (split; [reflexivity | exists []; cbn; rewrite app_nil_r; reflexivity]).
  - unfold applyFix, bind, read. destruct (connection_open this);
      (split; [reflexivity | exists []; cbn; rewrite app_nil_r; reflexivity]).
  - unfold dispose, bind, read. destruct (ws this);
      (split; [reflexivity | exists []; cbn; rewrite app_nil_r; reflexivity]).
Qed.

Lemma run_keeps_errors (ops : list operation) (this : BugfreeProvider) :
  exists added,
    currentErrors (fst (run ops this)) = (currentErrors this ++ added)%list.
Proof.
  revert this. induction ops as [ | op rest IH]; intros this.
  - exists []. cbn. rewrite app_nil_r. reflexivity.
  - cbn [run fst].
    destruct (perform_keeps_errors op this) as [_ [added1 H1]].
    destruct (IH (after (perform op this))) as [added2 H2].
    exists (added1 ++ added2)%list.
    rewrite H2, H1, app_assoc. reflexivity.
Qed.

(** C9. The error sequence is append-only. The ignore command shows one
    notice and leaves the provider, both sequences included, exactly as it
    was; every single operation, and so every sequence of operations, keeps
    the stored errors as a prefix of the error sequence afterwards, each at
    its index with its value; hence the length never decreases. *)
Theorem errors_are_append_only
  (this : BugfreeProvider) (ignored : ErrorContext) (ops : list operation) :
  (after (ignoreError ignored this) = this /\
   calls (ignoreError ignored this) =
     [showInformationMessage ("Ignored error: " ++ error_message ignored)]) /\
  (exists added,
     currentErrors (fst (run ops this)) = (currentErrors this ++ added)%list) /\
  (forall i stored, nth_error (currentErrors this) i = Some stored ->
     nth_error (currentErrors (fst (run ops this))) i = Some stored) /\
  (length (currentErrors this) <= length (currentErrors (fst (run ops this))))%nat.
Proof.
  destruct (run_keeps_errors ops this) as [added Hadded].
  split; [split; reflexivity | ].
  split; [exists added; exact Hadded | ].
  rewrite Hadded. split.
  - intros i stored Hi. rewrite nth_error_app1; [exact Hi | ].
    apply nth_error_Some. rewrite Hi. discriminate.
  - rewrite length_app. lia.
Qed.

(** ** What every operation does *)

Lemma handle_object_returns (props : list (string * value)) (this : BugfreeProvider) :
  result (handleBugfreeMessage (JObj props) this) = Returned tt.
Proof.
  unfold handleBugfreeMessage.
  rewrite member_object, bind_ret.
  destruct (strict_equals_string (carried "type" (JObj props)) "error_detected").
  - rewrite member_object, bind_ret. reflexivity.
  - rewrite bind_ret.
    destruct (strict_equals_string (carried "type" (JObj props)) "suggestions_ready").
    + rewrite member_object, bind_ret. reflexivity.
    + reflexivity.
Qed.

(** The three ways the handler can go. *)
Lemma handle_cases (message : value) (this : BugfreeProvider) :
  (tag message = Some "error_detected" /\
   handleBugfreeMessage message this =
     (Returned tt,
      set_currentErrors (currentErrors this ++ [carried "error" message])%list this,
      [fire])) \/
  (tag message = Some "suggestions_ready" /\
   handleBugfreeMessage message this =
     (Returned tt,
      set_currentSuggestions (or_else (carried "suggestions" message) (JArr [])) this,
      [fire])) \/
  (recognized message = false /\
   after (handleBugfreeMessage message this) = this /\
   calls (handleBugfreeMessage message this) = []).
Proof.
  unfold recognized.
  destruct (tag message) as [name | ] eqn:Htag.
  - destruct (String.eqb_spec name "error_detected") as [-> | Hne1].
    { left. split; [reflexivity | apply handle_error_detected, Htag]. }
    destruct (String.eqb_spec name "suggestions_ready") as [-> | Hne2].
    { right; left. split; [reflexivity | apply handle_suggestions_ready, Htag]. }
    right; right. split; [reflexivity | ].
    apply handle_other; rewrite Htag; congruence.
  - right; right. split; [reflexivity | ].
    apply handle_other; rewrite Htag; discriminate.
Qed.

(** The message callback around a parsed message: the handler's effect,
    plus one console line when the handler threw. *)
Lemma on_message_parsed (data : string) (message : value) (this : BugfreeProvider) :
  JSON_parse data = Some message ->
  on_message data this =
    (Returned tt,
     after (handleBugfreeMessage message this),
     (calls (handleBugfreeMessage message this) ++
      match result (handleBugfreeMessage message this) with
      | Returned _ => []
      | Thrown e => [console_error "Error parsing Bugfree message:" e]
      end)%list).
Proof.
  intros Hparse. unfold on_message, try_catch. rewrite Hparse, bind_ret.
  destruct (handleBugfreeMessage message this) as [[r this'] log].
  destruct r as [[] | e]; cbn; rewrite ?app_nil_r; reflexivity.
Qed.

(** What the message callback can have called: one refresh, one console
    line, or nothing. *)
Lemma on_message_calls (data : string) (this : BugfreeProvider) :
  calls (on_message data this) = [fire] \/
  calls (on_message data this) = [] \/
  exists e, calls (on_message data this)
            = [console_error "Error parsing Bugfree message:" e].
Proof.
  destruct (JSON_parse data) as [message | ] eqn:Hparse.
  - rewrite (on_message_parsed _ _ this Hparse).
    destruct (handle_cases message this) as [[_ H] | [[_ H] | [_ [_ H]]]].
    + rewrite H. left. reflexivity.
    + rewrite H. left. reflexivity.
    + unfold calls at 1; cbn. rewrite H.
      destruct (result (handleBugfreeMessage message this)) as [u | e].
      * right; left. reflexivity.
      * right; right. exists e. reflexivity.
  - unfold on_message, try_catch, bind. rewrite Hparse.
    right; right. exists SyntaxError. reflexivity.
Qed.

(** The message callback never touches the socket handle or the flag. *)
Lemma on_message_connection (data : string) (this : BugfreeProvider) :
  ws (after (on_message data this)) = ws this /\
  isConnected (after (on_message data this)) = isConnected this.
Proof.
  destruct (JSON_parse data) as [message | ] eqn:Hparse.
  - rewrite (on_message_parsed _ _ this Hparse).
    destruct (handle_cases message this) as [[_ H] | [[_ H] | [_ [H _]]]].
    + rewrite H. split; reflexivity.
    + rewrite H. split; reflexivity.
    + unfold after at 1 3; cbn. rewrite H. split; reflexivity.
  - unfold on_message, try_catch, bind. rewrite Hparse. split; reflexivity.
Qed.

(** A command leaves the provider exactly as it found it. *)
Lemma command_frame (op : operation) (this : BugfreeProvider) :
  is_socket_event op = false -> after (perform op this) = this.
Proof.
  destruct op; cbn [is_socket_event perform]; try discriminate; intros _;
    try reflexivity.
  - unfold startSystem, bind, read. destruct (connection_open this); reflexivity.
  - unfold stopSystem, bind, read. destruct (connection_open this); reflexivity.
  - unfold analyzeError, bind, read.
    destruct editor as [ed | ]; [destruct (connection_open this) | ]; reflexivity.
  - unfold applyFix, bind, read. destruct (connection_open this); reflexivity.
  - unfold dispose, bind, read. destruct (ws this); reflexivity.
Qed.

(** Every operation keeps the socket handle, and sets the flag as the open
    and close events say. *)
Lemma perform_connection (op : operation) (this : BugfreeProvider) :
  ws (after (perform op this)) = ws this /\
  isConnected (after (perform op this)) = connected_after [op] (isConnected this).
Proof.
  destruct (is_socket_event op) eqn:Hkind.
  - destruct op; try discriminate; cbn [perform connected_after].
    + split; reflexivity.
    + apply on_message_connection.
    + split; reflexivity.
    + split; reflexivity.
  - rewrite (command_frame _ _ Hkind).
    destruct op; try discriminate; split; reflexivity.
Qed.

Lemma connected_after_cons (op : operation) (rest : list operation) (initially : bool) :
  connected_after (op :: rest) initially
    = connected_after rest (connected_after [op] initially).
Proof.
  destruct op; reflexivity.
Qed.

(** The socket writes of an operation, read off its recorded calls. *)
Lemma perform_writes (op : operation) (this : BugfreeProvider) :
  filter is_network_write (calls (perform op this)) =
    match payload op with
    | Some message => if connection_open this then [ws_send message] else []
    | None => []
    end.
Proof.
  destruct op; cbn [perform payload]; try reflexivity.
  - destruct (on_message_calls data this) as [H | [H | [e H]]];
      rewrite H; reflexivity.
  - unfold startSystem, bind, read. destruct (connection_open this); reflexivity.
  - unfold stopSystem, bind, read. destruct (connection_open this); reflexivity.
  - unfold analyzeError, bind, read.
    destruct editor as [ed | ]; [destruct (connection_open this) | ]; reflexivity.
  - unfold applyFix, bind, read. destruct (connection_open this); reflexivity.
  - unfold dispose, bind, read. destruct (ws this); reflexivity.
Qed.

Lemma network_writes_app (log1 log2 : list event) :
  network_writes (log1 ++ log2)%list = (network_writes log1 + network_writes log2)%nat.
Proof.
  unfold network_writes. rewrite filter_app, length_app. reflexivity.
Qed.

Lemma run_app (ops1 ops2 : list operation) (this : BugfreeProvider) :
  run (ops1 ++ ops2)%list this =
    (fst (run ops2 (fst (run ops1 this))),
     (snd (run ops1 this) ++ snd (run ops2 (fst (run ops1 this))))%list).
Proof.
  revert this. induction ops1 as [ | op rest IH]; intros this.
  - cbn. destruct (run ops2 this); reflexivity.
  - cbn [app run fst snd]. rewrite IH. cbn [fst snd].
    rewrite app_assoc. reflexivity.
Qed.

(** X1. The socket writes of any operation on any provider: the four
    sending commands ([startSystem], [stopSystem], [applyFix], and
    [analyzeError] with an active editor) write exactly once, their own
    message, and only when the connection is open; no socket callback and
    no other command ever writes; so no operation writes twice. *)
Theorem writes_of_an_operation (op : operation) (this : BugfreeProvider) :
  filter is_network_write (calls (perform op this)) =
    match payload op with
    | Some message => if connection_open this then [ws_send message] else []
    | None => []
    end /\
  (network_writes (calls (perform op this)) <= 1)%nat.
Proof.
  split.
  - apply perform_writes.
  - unfold network_writes. rewrite perform_writes.
    destruct (payload op); [destruct (connection_open this) | ]; cbn; lia.
Qed.

(** X2. With the connection open, a sending command first writes its
    message to the socket and then shows exactly one information notice,
    and returns normally with the provider unchanged; the fix request
    carries the suggestion it was given and the analysis request the file
    of the editor and its cursor line counted from one. *)
Theorem sending_while_connected
  (op : operation) (message : outbound number) (this : BugfreeProvider) :
  connection_open this = true ->
  payload op = Some message ->
  result (perform op this) = Returned tt /\
  after (perform op this) = this /\
  exists text,
    calls (perform op this) = [ws_send message; showInformationMessage text].
Proof.
  intros Hopen Hpayload.
  destruct op; cbn [payload] in Hpayload; try discriminate; cbn [perform].
  - injection Hpayload as <-.
    unfold startSystem, bind, read. rewrite Hopen.
    repeat split. eexists. reflexivity.
  - injection Hpayload as <-.
    unfold stopSystem, bind, read. rewrite Hopen.
    repeat split. eexists. reflexivity.
  - destruct editor as [ed | ]; [ | discriminate].
    injection Hpayload as <-.
    unfold analyzeError, bind, read. rewrite Hopen.
    repeat split. eexists. reflexivity.
  - injection Hpayload as <-.
    unfold applyFix, bind, read. rewrite Hopen.
    repeat split. eexists. reflexivity.
Qed.

(** X3. Commands are stateless: the provider a sequence of operations
    leads to is the one its socket events alone lead to, whatever commands
    are interleaved with them. *)
Theorem state_depends_on_socket_events_only
  (ops : list operation) (this : BugfreeProvider) :
  fst (run ops this) = fst (run (filter is_socket_event ops) this).
Proof.
  revert this. induction ops as [ | op rest IH]; intros this.
  - reflexivity.
  - cbn [filter]. destruct (is_socket_event op) eqn:Hkind.
    + cbn [run fst]. apply IH.
    + cbn [run fst]. rewrite (command_frame _ _ Hkind). apply IH.
Qed.

(** X4. Over any sequence of operations the socket handle stored at
    construction is never replaced or cleared, not even by the close event
    or by [dispose], and the connected flag afterwards is the one set by
    the last open or close event of the sequence (the initial one when
    there is none). *)
Theorem handle_and_flag_after_a_run (ops : list operation) (this : BugfreeProvider) :
  ws (fst (run ops this)) = ws this /\
  isConnected (fst (run ops this)) = connected_after ops (isConnected this).
Proof.
  revert this. induction ops as [ | op rest IH]; intros this.
  - split; reflexivity.
  - cbn [run fst].
    destruct (perform_connection op this) as [Hws Hflag].
    destruct (IH (after (perform op this))) as [IHws IHflag].
    rewrite IHws, IHflag, Hws, Hflag, (connected_after_cons op rest).
    split; reflexivity.
Qed.

Lemma closed_stays_closed (op : operation) (this : BugfreeProvider) :
  connection_open this = false ->
  is_open_event op = false ->
  connection_open (after (perform op this)) = false.
Proof.
  intros Hclosed Hnot_open.
  destruct (perform_connection op this) as [Hws Hflag].
  unfold connection_open in *. rewrite Hws, Hflag.
  destruct (ws this); [ | reflexivity].
  destruct op; cbn in *; congruence.
Qed.

(** X5. Nothing is written to the socket before it has opened: from a
    provider whose connection is not open, a sequence of operations that
    contains no open event makes no network write at all. *)
Theorem no_write_before_open (ops : list operation) (this : BugfreeProvider) :
  connection_open this = false ->
  existsb is_open_event ops = false ->
  network_writes (snd (run ops this)) = 0%nat.
Proof.
  revert this. induction ops as [ | op rest IH]; intros this Hclosed Hnone.
  - reflexivity.
  - cbn [existsb] in Hnone. apply orb_false_iff in Hnone as [Hop Hrest].
    cbn [run snd]. rewrite network_writes_app.
    rewrite (IH _ (closed_stays_closed _ _ Hclosed Hop) Hrest).
    unfold network_writes at 1. rewrite perform_writes, Hclosed.
    destruct (payload op); reflexivity.
Qed.

Lemma no_socket_no_close (op : operation) (this : BugfreeProvider) :
  ws this = None ->
  filter is_socket_close_call (calls (perform op this)) = [].
Proof.
  intros Hnone.
  assert (Hclosed : connection_open this = false)
    by (unfold connection_open; rewrite Hnone; reflexivity).
  destruct op; cbn [perform]; try reflexivity.
  - destruct (on_message_calls data this) as [H | [H | [e H]]];
      rewrite H; reflexivity.
  - unfold startSystem, bind, read. rewrite Hclosed. reflexivity.
  - unfold stopSystem, bind, read. rewrite Hclosed. reflexivity.
  - unfold analyzeError, bind, read.
    destruct editor as [ed | ]; [rewrite Hclosed | ]; reflexivity.
  - unfold applyFix, bind, read. rewrite Hclosed. reflexivity.
  - unfold dispose, bind, read. rewrite Hnone. reflexivity.
Qed.

Lemma no_socket_no_traffic (ops : list operation) (this : BugfreeProvider) :
  ws this = None ->
  network_writes (snd (run ops this)) = 0%nat /\
  filter is_socket_close_call (snd (run ops this)) = [].
Proof.
  revert this. induction ops as [ | op rest IH]; intros this Hnone.
  - split; reflexivity.
  - cbn [run snd].
    assert (Hnext : ws (after (perform op this)) = None)
      by (rewrite (proj1 (perform_connection op this)); exact Hnone).
    destruct (IH _ Hnext) as [IHwrites IHclose].
    rewrite network_writes_app, filter_app, IHwrites, IHclose,
      (no_socket_no_close _ _ Hnone).
    unfold network_writes. rewrite perform_writes.
    unfold connection_open. rewrite Hnone.
    destruct (payload op); split; reflexivity.
Qed.

(** X6. When the socket constructor rejects the address, construction only
    logs the error: the provider holds no socket, and from then on no
    sequence of operations, open events included, ever writes to a socket
    or closes one. *)
Theorem rejected_address_means_no_traffic
  (config : Configuration) (ops : list operation) :
  ws_accepts (address (serverHost config)
                (string_of_Z (get (serverPort config) 8003%Z))) = false ->
  connectToBugfree config fresh =
    (Returned tt, fresh,
     [console_error "Error connecting to Bugfree:" SyntaxError]) /\
  ws (constructor config) = None /\
  network_writes (snd (run ops (constructor config))) = 0%nat /\
  filter is_socket_close_call (snd (run ops (constructor config))) = [].
Proof.
  intros Hrejected.
  assert (Hconnect : connectToBugfree config fresh =
            (Returned tt, fresh,
             [console_error "Error connecting to Bugfree:" SyntaxError])).
  { unfold connectToBugfree. rewrite connect_calls.
    unfold address in Hrejected. rewrite Hrejected. reflexivity. }
  split; [exact Hconnect | ].
  assert (Hnone : ws (constructor config) = None)
    by (unfold constructor; rewrite Hconnect; reflexivity).
  split; [exact Hnone | ].
  apply no_socket_no_traffic, Hnone.
Qed.

(** X7. A new provider holds no error and no suggestion and is not
    connected, whether or not the socket could be created; its socket, when
    there is one, was asked for the configured host and port with
    [localhost] and 8003 as defaults; and a start request before the open
    event is answered by the not-connected notice alone. *)
Theorem a_new_provider (config : Configuration) :
  currentErrors (constructor config) = [] /\
  currentSuggestions (constructor config) = JArr [] /\
  isConnected (constructor config) = false /\
  ws (constructor config) =
    (if ws_accepts (address (serverHost config)
                      (string_of_Z (get (serverPort config) 8003%Z)))
     then Some {| url := address (serverHost config)
                           (string_of_Z (get (serverPort config) 8003%Z)) |}
     else None) /\
  calls (startSystem (constructor config)) =
    [showErrorMessage "Not connected to Bugfree system"].
Proof.
  unfold constructor, connectToBugfree. rewrite connect_calls.
  unfold address.
  destruct (ws_accepts
              ("ws://" ++ get (serverHost config) "localhost" ++ ":" ++
               string_of_Z (get (serverPort config) 8003%Z)));
    repeat split.
Qed.

(** ** Streams of messages *)

Lemma set_currentErrors_same (this : BugfreeProvider) :
  set_currentErrors (currentErrors this) this = this.
Proof.
  destruct this; reflexivity.
Qed.

(** X8. Errors are stored in arrival order: after a burst of payloads that
    each parse to a message tagged [error_detected], the error sequence is
    the old one followed by the carried errors, first arrived first, the
    rest of the provider is as before, and the tree views were refreshed
    once per message and nothing else was called. *)
Theorem errors_arrive_in_order
  (datas : list string) (messages : list value) (this : BugfreeProvider) :
  Forall2 (fun data message =>
             JSON_parse data = Some message /\
             tag message = Some "error_detected") datas messages ->
  fst (run (map socket_message datas) this) =
    set_currentErrors
      (currentErrors this ++ map (carried "error") messages)%list this /\
  snd (run (map socket_message datas) this) = repeat fire (length datas).
Proof.
  intros Hall. revert this.
  induction Hall as [ | data message datas messages [Hparse Htag] _ IH];
    intros this.
  - cbn. rewrite app_nil_r, set_currentErrors_same. split; reflexivity.
  - cbn [map run perform fst snd length repeat].
    rewrite (on_message_parsed _ _ this Hparse).
    rewrite (handle_error_detected _ this Htag).
    unfold after, calls, result; cbn [fst snd app].
    destruct (IH (set_currentErrors
                    (currentErrors this ++ [carried "error" message])%list this))
      as [IHstate IHcalls].
    rewrite IHstate, IHcalls. cbn [currentErrors set_currentErrors].
    rewrite <- app_assoc. split; reflexivity.
Qed.

Lemma keeps_suggestions (op : operation) (this : BugfreeProvider) :
  delivers_suggestions op = false ->
  currentSuggestions (after (perform op this)) = currentSuggestions this.
Proof.
  intros Hnot.
  destruct (is_socket_event op) eqn:Hkind;
    [ | rewrite (command_frame _ _ Hkind); reflexivity].
  destruct op; try discriminate; cbn [perform]; try reflexivity.
  cbn [delivers_suggestions] in Hnot.
  destruct (JSON_parse data) as [message | ] eqn:Hparse.
  - rewrite (on_message_parsed _ _ this Hparse).
    destruct (handle_cases message this) as [[_ H] | [[Htag _] | [_ [H _]]]].
    + rewrite H. reflexivity.
    + rewrite Htag in Hnot. discriminate.
    + unfold after at 1; cbn. rewrite H. reflexivity.
  - unfold on_message, try_catch, bind. rewrite Hparse. reflexivity.
Qed.

Lemma run_keeps_suggestions (ops : list operation) (this : BugfreeProvider) :
  existsb delivers_suggestions ops = false ->
  currentSuggestions (fst (run ops this)) = currentSuggestions this.
Proof.
  revert this. induction ops as [ | op rest IH]; intros this Hnone.
  - reflexivity.
  - cbn [existsb] in Hnone. apply orb_false_iff in Hnone as [Hop Hrest].
    cbn [run fst]. rewrite (IH _ Hrest). apply keeps_suggestions, Hop.
Qed.

(** X9. The last [suggestions_ready] message wins: whatever happened
    before it and whatever the provider held, once such a message has been
    delivered and no other one follows, the suggestion sequence is the one
    that message carried (the empty array when it carried none), however
    many other operations come after it. *)
Theorem last_suggestions_win
  (before later : list operation) (data : string) (message : value)
  (this : BugfreeProvider) :
  JSON_parse data = Some message ->
  tag message = Some "suggestions_ready" ->
  existsb delivers_suggestions later = false ->
  currentSuggestions
    (fst (run (before ++ socket_message data :: later)%list this))
    = or_else (carried "suggestions" message) (JArr []).
Proof.
  intros Hparse Htag Hnone.
  rewrite run_app; cbn [fst].
  cbn [run fst perform].
  rewrite (run_keeps_suggestions _ _ Hnone).
  rewrite (on_message_parsed _ _ _ Hparse).
  rewrite (handle_suggestions_ready _ _ Htag).
  reflexivity.
Qed.

(** X10. Whatever bytes arrive, the message callback returns normally,
    writes nothing to the socket, shows no notice, leaves the socket handle
    and the connected flag alone, and refreshes the tree views at most
    once. *)
Theorem message_callback_is_contained (data : string) (this : BugfreeProvider) :
  result (on_message data this) = Returned tt /\
  ws (after (on_message data this)) = ws this /\
  isConnected (after (on_message data this)) = isConnected this /\
  network_writes (calls (on_message data this)) = 0%nat /\
  notices (calls (on_message data this)) = 0%nat /\
  (ui_calls (calls (on_message data this)) <= 1)%nat.
Proof.
  split; [apply (on_message_keeps_errors data this) | ].
  split; [apply on_message_connection | ].
  split; [apply on_message_connection | ].
  destruct (on_message_calls data this) as [H | [H | [e H]]]; rewrite H;
    cbn; repeat split; lia.
Qed.

(** X11. The tree views are refreshed exactly when a branch of the handler
    ran: a payload that parses to a message tagged [error_detected] or
    [suggestions_ready] causes one refresh, and every other parsed payload
    causes none and leaves the provider as it was. *)
Theorem refresh_exactly_when_recognized
  (data : string) (message : value) (this : BugfreeProvider) :
  JSON_parse data = Some message ->
  ui_calls (calls (on_message data this))
    = (if recognized message then 1%nat else 0%nat) /\
  (if recognized message then True else after (on_message data this) = this).
Proof.
  intros Hparse. rewrite (on_message_parsed _ _ this Hparse).
  destruct (handle_cases message this) as [[Htag H] | [[Htag H] | [Hno [Hst H]]]].
  - unfold recognized. rewrite Htag, H. cbn. split; [reflexivity | exact I].
  - unfold recognized. rewrite Htag, H. cbn. split; [reflexivity | exact I].
  - rewrite Hno. unfold calls at 1, after at 1; cbn. rewrite H, Hst.
    destruct (result (handleBugfreeMessage message this));
      split; reflexivity.
Qed.

(** X12. The handler throws on exactly two values, [null] and [undefined],
    and what it throws is a TypeError; on every other value, of whatever
    shape, it returns normally. *)
Theorem handler_throws_only_on_null (message : value) (this : BugfreeProvider) :
  result (handleBugfreeMessage message this) =
    match message with
    | JNull | JUndefined => Thrown TypeError
    | _ => Returned tt
    end.
Proof.
  destruct message as [ | | b | n | s | items | props]; try reflexivity.
  apply handle_object_returns.
Qed.

(** X13. A payload whose JSON text is the literal [null] parses, makes the
    handler throw, and is reported on the console under the parse-error
    label with that TypeError; the provider is unchanged and nothing else
    is called. *)
Theorem null_payload_is_reported_as_parse_error
  (data : string) (this : BugfreeProvider) :
  JSON_parse data = Some JNull ->
  on_message data this =
    (Returned tt, this,
     [console_error "Error parsing Bugfree message:" TypeError]).
Proof.
  intros Hparse. rewrite (on_message_parsed _ _ this Hparse). reflexivity.
Qed.

(** ** Webview panels *)


(** X15. Showing the details of an error is local: it sends nothing and
    leaves the provider as it was, and its one call opens a panel titled
    with the error type whose document contains, verbatim, the error
    message block and the file block with path and line number. *)
Theorem error_details_are_local (this : BugfreeProvider) (e : ErrorContext) :
  after (showErrorDetails e this) = this /\
  network_writes (calls (showErrorDetails e this)) = 0%nat /\
  calls (showErrorDetails e this) =
    [createWebviewPanel "bugfreeErrorDetails"
       ("Error Details: " ++ error_type e)
       (error_details_html e)] /\
  occurs_in ("<div " ++ attr "class" "error-message" ++ ">" ++
             error_message e ++ "</div>")
            (error_details_html e) /\
  occurs_in ("<div " ++ attr "class" "file-info" ++ ">File: " ++
             file_path e ++ ":" ++ number_text (line_number e) ++ "</div>")
            (error_details_html e).
Proof.
  repeat split.
  - unfold error_details_html.
    do 16 apply occurs_skip.
    apply occurs_left. unfold ln. apply occurs_skip, occurs_here.
  - unfold error_details_html.
    do 17 apply occurs_skip.
    apply occurs_left. unfold ln. apply occurs_skip, occurs_here.
Qed.

(** ** Tree rendering *)

Lemma reads_only_ret {A : Type} (a : A) : reads_only (ret a).
Proof.
  intros this. split; reflexivity.
Qed.

Lemma reads_only_throw {A : Type} (e : error) : reads_only (@throw A e).
Proof.
  intros this. split; reflexivity.
Qed.

Lemma reads_only_read {A : Type} (field : BugfreeProvider -> A) :
  reads_only (read field).
Proof.
  intros this. split; reflexivity.
Qed.

Lemma reads_only_bind {A B : Type} (c : M A) (k : A -> M B) :
  reads_only c -> (forall a, reads_only (k a)) -> reads_only (bind c k).
Proof.
  intros Hc Hk this. unfold bind.
  destruct (Hc this) as [Hafter Hcalls].
  destruct (c this) as [[r this1] log1].
  unfold after, calls in Hafter, Hcalls; cbn in Hafter, Hcalls. subst this1 log1.
  destruct r as [a | e]; [ | split; reflexivity].
  destruct (Hk a this) as [Hafter Hcalls].
  destruct (k a this) as [[r this2] log2].
  unfold after, calls in Hafter, Hcalls; cbn in Hafter, Hcalls. subst this2 log2.
  split; reflexivity.
Qed.

Lemma reads_only_member (v : value) (key : string) : reads_only (member v key).
Proof.
  destruct v as [ | | b | n | s | items | props]; cbn [member];
    try apply reads_only_ret; try apply reads_only_throw.
  destruct (lookup key props); apply reads_only_ret.
Qed.

Lemma reads_only_length_of (v : value) : reads_only (length_of v).
Proof.
  destruct v; cbn [length_of]; try apply reads_only_ret; apply reads_only_throw.
Qed.

Lemma reads_only_substring (v : value) : reads_only (substring_0_50 v).
Proof.
  destruct v; cbn [substring_0_50]; try apply reads_only_throw; apply reads_only_ret.
Qed.

Lemma reads_only_map_array {A B : Type} (callback : A -> M B) (l : list A) :
  (forall x, reads_only (callback x)) -> reads_only (map_array callback l).
Proof.
  intros Hcallback. induction l as [ | x rest IH]; cbn [map_array].
  - apply reads_only_ret.
  - apply reads_only_bind; [apply Hcallback | intros y].
    apply reads_only_bind; [exact IH | intros ys]. apply reads_only_ret.
Qed.

Lemma reads_only_error_item (e : value) : reads_only (error_item e).
Proof.
  unfold error_item.
  repeat (apply reads_only_bind;
          [first [apply reads_only_member | apply reads_only_substring] | intros ?]).
  apply reads_only_ret.
Qed.

Lemma reads_only_suggestion_item (suggestion : value) :
  reads_only (suggestion_item suggestion).
Proof.
  unfold suggestion_item.
  repeat (apply reads_only_bind; [apply reads_only_member | intros ?]).
  apply reads_only_ret.
Qed.

(** X16. Rendering the tree only reads: for every element, and also when
    it throws, [getChildren] returns the provider it was given and makes no
    call to the host, the console or the socket. *)
Theorem rendering_reads_only (element : option BugfreeItem) (this : BugfreeProvider) :
  after (getChildren element this) = this /\
  calls (getChildren element this) = [].
Proof.
  revert this. change (reads_only (getChildren element)).
  destruct element as [node | ]; cbn [getChildren].
  - destruct (context_is node "errors").
    { apply reads_only_bind; [apply reads_only_read | intros errors].
      apply reads_only_map_array, reads_only_error_item. }
    destruct (context_is node "suggestions"); [ | apply reads_only_ret].
    apply reads_only_bind; [apply reads_only_read | intros suggestions].
    destruct suggestions; cbn [map_of]; try apply reads_only_throw.
    apply reads_only_map_array, reads_only_suggestion_item.
  - apply reads_only_bind; [apply reads_only_read | intros connected].
    apply reads_only_bind; [apply reads_only_read | intros errors].
    apply reads_only_bind; [apply reads_only_read | intros suggestions].
    apply reads_only_bind; [apply reads_only_length_of | intros count].
    destruct (greater_than_zero count); [ | apply reads_only_ret].
    apply reads_only_bind; [apply reads_only_length_of | intros count'].
    apply reads_only_ret.
Qed.

(** X17. With the suggestions held as an array, the root of the tree is
    the connection status item first, labelled by the connected flag, then
    the errors node exactly when an error is stored, then the suggestions
    node exactly when the array is not empty: one to three items, never
    none. *)
Theorem root_of_the_tree (this : BugfreeProvider) (suggestions : list value) :
  (forall z, number_positive (number_of_Z z) = (0 <? z)%Z) ->
  currentSuggestions this = JArr suggestions ->
  exists children,
    result (getChildren None this) = Returned children /\
    map (fun item => contextValue item) children =
      (None ::
       match currentErrors this with [] => [] | _ :: _ => [Some "errors"] end ++
       match suggestions with [] => [] | _ :: _ => [Some "suggestions"] end)%list /\
    hd_error (map (fun item => label item) children) =
      Some (if isConnected this then "🟢 Connected" else "🔴 Disconnected").
Proof.
  intros Hpositive Hsuggestions.
  unfold getChildren, bind, read. rewrite Hsuggestions.
  cbn [length_of ret]. unfold greater_than_zero, array_length, ToNumber.
  rewrite !Hpositive.
  destruct (currentErrors this) as [ | e errors];
    destruct suggestions as [ | s suggestions];
    eexists; (split; [reflexivity | split; reflexivity]).
Qed.

Lemma error_item_renderable (e : value) (this : BugfreeProvider) :
  renderable_error e = true ->
  exists item,
    error_item e this = (Returned item, this, []) /\
    item_arguments item = [e] /\
    contextValue item = Some "error".
Proof.
  destruct e as [ | | b | n | s | items | props]; try discriminate.
  cbn [renderable_error].
  destruct (lookup "error_message" props) as [v | ] eqn:Hmessage; try discriminate.
  destruct v as [ | | b | n | text | items | props']; try discriminate.
  intros _. unfold error_item.
  rewrite member_object, bind_ret.
  rewrite member_object, bind_ret.
  replace (carried "error_message" (JObj props)) with (JStr text : value)
    by (unfold carried, get; rewrite Hmessage; reflexivity).
  cbn [substring_0_50]. rewrite bind_ret.
  rewrite member_object, bind_ret.
  rewrite member_object, bind_ret.
  rewrite bind_ret.
  eexists. split; [reflexivity | split; reflexivity].
Qed.

Lemma error_item_unrenderable (e : value) (this : BugfreeProvider) :
  renderable_error e = false ->
  error_item e this = (Thrown TypeError, this, []).
Proof.
  destruct e as [ | | b | n | s | items | props]; try reflexivity.
  cbn [renderable_error]. intros Hbad. unfold error_item.
  rewrite member_object, bind_ret.
  rewrite member_object, bind_ret.
  destruct (carried "error_message" (JObj props)) as [ | | b | n | text | items | props']
    eqn:Hmessage; try reflexivity.
  unfold carried, get in Hmessage.
  destruct (lookup "error_message" props) as [v | ]; [ | discriminate].
  subst v. discriminate.
Qed.

Lemma suggestion_item_with_members (suggestion : value) (this : BugfreeProvider) :
  has_members suggestion = true ->
  exists item,
    suggestion_item suggestion this = (Returned item, this, []) /\
    item_arguments item = [suggestion] /\
    contextValue item = Some "suggestion".
Proof.
  intros Hmembers.
  assert (Hmember : forall key, exists v, member suggestion key = ret v).
  { intros key. destruct suggestion as [ | | b | n | s | items | props];
      try discriminate; cbn [member]; try (eexists; reflexivity).
    destruct (lookup key props); eexists; reflexivity. }
  unfold suggestion_item.
  destruct (Hmember "title") as [v1 ->]. rewrite bind_ret.
  destruct (Hmember "confidence_score") as [v2 ->]. rewrite bind_ret.
  destruct (Hmember "description") as [v3 ->]. rewrite bind_ret.
  destruct (Hmember "agent_source") as [v4 ->]. rewrite bind_ret.
  eexists. split; [reflexivity | split; reflexivity].
Qed.

Lemma suggestion_item_without_members (suggestion : value) (this : BugfreeProvider) :
  has_members suggestion = false ->
  suggestion_item suggestion this = (Thrown TypeError, this, []).
Proof.
  destruct suggestion; try discriminate; reflexivity.
Qed.

Lemma suggestions_node_is_not_errors_node (node : BugfreeItem) :
  context_is node "suggestions" = true -> context_is node "errors" = false.
Proof.
  unfold context_is. destruct (contextValue node) as [name | ]; [ | discriminate].
  intros H. apply String.eqb_eq in H. subst name. reflexivity.
Qed.


(** When the callback either returns or throws a TypeError, both without
    touching the provider, one throwing element makes the whole map throw. *)
Lemma map_array_throws {A B : Type} (callback : A -> M B)
  (l : list A) (this : BugfreeProvider) :
  (forall x, callback x this = (Thrown TypeError, this, []) \/
             exists y, callback x this = (Returned y, this, [])) ->
  Exists (fun x => callback x this = (Thrown TypeError, this, [])) l ->
  map_array callback l this = (Thrown TypeError, this, []).
Proof.
  intros Hall. induction l as [ | x rest IH]; intros Hbad.
  - inversion Hbad.
  - cbn [map_array]. unfold bind.
    destruct (Hall x) as [Hthrow | [y Hy]].
    + rewrite Hthrow. reflexivity.
    + rewrite Hy. rewrite IH; [reflexivity | ].
      inversion Hbad as [? ? Hhead | ? ? Htail]; subst; [ | exact Htail].
      rewrite Hy in Hhead. discriminate.
Qed.

Lemma map_array_results {A B : Type} (callback : A -> M B) (Q : B -> Prop)
  (l : list A) (this : BugfreeProvider) (ys : list B) :
  (forall x this' y, result (callback x this') = Returned y -> Q y) ->
  result (map_array callback l this) = Returned ys ->
  Forall Q ys.
Proof.
  intros Hcallback. revert this ys.
  induction l as [ | x rest IH]; intros this ys; cbn [map_array].
  - intros H; injection H as <-. constructor.
  - unfold bind.
    destruct (callback x this) as [[r this1] log1] eqn:Hx.
    destruct r as [y | e]; [ | discriminate].
    destruct (map_array callback rest this1) as [[r' this2] log2] eqn:Hrest.
    destruct r' as [ys' | e]; [ | discriminate].
    cbn. intros H; injection H as <-.
    constructor.
    + apply (Hcallback x this). rewrite Hx. reflexivity.
    + apply (IH this1). rewrite Hrest. reflexivity.
Qed.



Lemma errors_node_throws (node : BugfreeItem) (this : BugfreeProvider) (bad : value) :
  context_is node "errors" = true ->
  In bad (currentErrors this) ->
  renderable_error bad = false ->
  getChildren (Some node) this = (Thrown TypeError, this, []).
Proof.
  intros Hnode Hin Hbad.
  cbn [getChildren]. rewrite Hnode. unfold bind, read.
  rewrite (map_array_throws error_item (currentErrors this) this).
  - reflexivity.
  - intros e. destruct (renderable_error e) eqn:He.
    + right. destruct (error_item_renderable e this He) as [item [H _]].
      exists item. exact H.
    + left. apply error_item_unrenderable, He.
  - apply Exists_exists. exists bad. split; [exact Hin | ].
    apply error_item_unrenderable, Hbad.
Qed.

(** X19. One stored error that is not an object with a string
    [error_message] is enough to make the errors node unrenderable: as soon
    as some stored error is [null], [undefined], not an object, or lacks
    the message text, [getChildren] on the errors node throws a TypeError,
    whatever the other stored errors are. *)
Theorem errors_node_needs_renderable_errors (node : BugfreeItem) (this : BugfreeProvider) :
  context_is node "errors" = true ->
  forallb renderable_error (currentErrors this) = false ->
  getChildren (Some node) this = (Thrown TypeError, this, []).
Proof.
  intros Hnode Hsome.
  assert (Hbad : exists bad, In bad (currentErrors this) /\ renderable_error bad = false).
  { induction (currentErrors this) as [ | e rest IH]; [discriminate | ].
    cbn [forallb] in Hsome. apply andb_false_iff in Hsome as [He | Hrest].
    - exists e. split; [left; reflexivity | exact He].
    - destruct (IH Hrest) as [bad [Hin Hbad]].
      exists bad. split; [right; exact Hin | exact Hbad]. }
  destruct Hbad as [bad [Hin Hbad]].
  apply (errors_node_throws node this bad Hnode Hin Hbad).
Qed.

(** X20. A single [error_detected] message without a usable error (no
    [error] member, or one that is not an object with a string
    [error_message]) breaks the errors node for good: after it is
    delivered, and whatever operations follow, [getChildren] on the errors
    node throws a TypeError, because the bad entry is stored and nothing
    ever removes it. *)
Theorem unusable_error_breaks_the_errors_node_for_good
  (data : string) (message : value) (later : list operation)
  (node : BugfreeItem) (this : BugfreeProvider) :
  JSON_parse data = Some message ->
  tag message = Some "error_detected" ->
  renderable_error (carried "error" message) = false ->
  context_is node "errors" = true ->
  result (getChildren (Some node) (fst (run (socket_message data :: later) this)))
    = Thrown TypeError.
Proof.
  intros Hparse Htag Hbad Hnode.
  cbn [run fst perform].
  destruct (run_keeps_errors later (after (on_message data this))) as [added Hadded].
  rewrite (errors_node_throws node _ (carried "error" message) Hnode);
    [reflexivity | | exact Hbad].
  rewrite Hadded.
  rewrite (on_message_parsed _ _ this Hparse).
  rewrite (handle_error_detected _ this Htag).
  unfold after; cbn [fst snd currentErrors set_currentErrors].
  apply in_or_app. left. apply in_or_app. right. left. reflexivity.
Qed.


(** X22. A [suggestions_ready] message whose suggestions are truthy but
    not an array (a string, a number, an object) is stored as it is, and
    from then on the suggestions node cannot be rendered: [getChildren] on
    it throws a TypeError. *)
Theorem non_array_suggestions_break_the_suggestions_node
  (message : value) (node : BugfreeItem) (this : BugfreeProvider) :
  tag message = Some "suggestions_ready" ->
  truthy (carried "suggestions" message) = true ->
  is_array (carried "suggestions" message) = false ->
  context_is node "suggestions" = true ->
  currentSuggestions (after (handleBugfreeMessage message this))
    = carried "suggestions" message /\
  result (getChildren (Some node) (after (handleBugfreeMessage message this)))
    = Thrown TypeError.
Proof.
  intros Htag Htruthy Hshape Hnode.
  pose proof (suggestions_node_is_not_errors_node node Hnode) as Hnot.
  rewrite (handle_suggestions_ready _ this Htag).
  unfold after, or_else; cbn [fst snd]. rewrite Htruthy.
  split; [reflexivity | ].
  cbn [getChildren]. rewrite Hnot, Hnode. unfold bind, read.
  cbn [currentSuggestions set_currentSuggestions].
  destruct (carried "suggestions" message); try discriminate; reflexivity.
Qed.

(** X23. The tree is two levels deep: every child that [getChildren]
    returns for a node is a leaf, that is, asking for its children, on any
    provider, returns the empty list without throwing. *)
Theorem children_of_a_node_are_leaves
  (node child : BugfreeItem) (children : list BugfreeItem)
  (this this' : BugfreeProvider) :
  result (getChildren (Some node) this) = Returned children ->
  In child children ->
  getChildren (Some child) this' = (Returned [], this', []).
Proof.
  intros Hrun Hin.
  assert (Hleaf : context_is child "errors" = false /\
                  context_is child "suggestions" = false).
  { cbn [getChildren] in Hrun.
    destruct (context_is node "errors").
    - unfold bind, read in Hrun.
      assert (Hall : Forall (fun item => contextValue item = Some "error") children).
      { apply (map_array_results error_item _ (currentErrors this) this).
        - intros e that item Hitem.
          destruct (renderable_error e) eqn:He.
          + destruct (error_item_renderable e that He) as [item' [H [_ Hctx]]].
            rewrite H in Hitem. injection Hitem as <-. exact Hctx.
          + rewrite (error_item_unrenderable e that He) in Hitem. discriminate.
        - destruct (map_array error_item (currentErrors this) this) as [[r t] lg].
          destruct r; [ | discriminate]. cbn in Hrun |- *. exact Hrun. }
      rewrite Forall_forall in Hall. unfold context_is.
      rewrite (Hall child Hin). split; reflexivity.
    - destruct (context_is node "suggestions").
      + unfold bind, read in Hrun.
        assert (Hall : Forall (fun item => contextValue item = Some "suggestion")
                         children).
        { destruct (currentSuggestions this) as [ | | b | n | s | items | props];
            cbn [map_of] in Hrun; try discriminate.
          apply (map_array_results suggestion_item _ items this).
          - intros s that item Hitem.
            destruct (has_members s) eqn:Hs.
            + destruct (suggestion_item_with_members s that Hs) as [item' [H [_ Hctx]]].
              rewrite H in Hitem. injection Hitem as <-. exact Hctx.
            + rewrite (suggestion_item_without_members s that Hs) in Hitem.
              discriminate.
          - destruct (map_array suggestion_item items this) as [[r t] lg].
            destruct r; [ | discriminate]. cbn in Hrun |- *. exact Hrun. }
        rewrite Forall_forall in Hall. unfold context_is.
        rewrite (Hall child Hin). split; reflexivity.
      + injection Hrun as <-. destruct Hin. }
  destruct Hleaf as [H1 H2].
  cbn [getChildren]. rewrite H1, H2. reflexivity.
Qed.

End Bugfree.

Arguments outcome A : clear implicits.
Arguments result {number A} r.
Arguments after {number A} r.
Arguments calls {number A} r.
Arguments tag {number} message.
Arguments carried {number} key message.
Arguments truthy {number} number_truthy v.
Arguments fresh {number}.
Arguments constructor {number} ws_accepts config.
Arguments connection_open {number} this.
Arguments handleBugfreeMessage {number} number_truthy message _.
Arguments on_open {number} _.
Arguments on_message {number} number_truthy JSON_parse data _.
Arguments on_close {number} _.
Arguments on_error {number} e _.
Arguments startSystem {number} _.
Arguments stopSystem {number} _.
Arguments applyFix {number} suggestion _.
Arguments notices {number} log.
Arguments network_writes {number} log.
Arguments ui_calls {number} log.

(** ** The theorems at work on the concrete host *)

Lemma suggestions_ready_replaces_witness :
  tag Sample.ready = Some "suggestions_ready" /\
  carried "suggestions" Sample.ready
    = JArr [JObj [("title", JStr "Define the variable")]] /\
  currentSuggestions
    (after (handleBugfreeMessage Sample.number_truthy Sample.ready Sample.busy))
    = JArr [JObj [("title", JStr "Define the variable")]].
Proof.
  split; [reflexivity | split; [reflexivity | ]].
  exact (proj1 (proj2
    (suggestions_ready_replaces Sample.number Sample.number_truthy
       Sample.busy Sample.ready _ eq_refl eq_refl))).
Defined.

Lemma error_detected_appends_witness :
  tag Sample.detected = Some "error_detected" /\
  nth_error
    (currentErrors
       (after (handleBugfreeMessage Sample.number_truthy Sample.detected Sample.busy)))
    (length (currentErrors Sample.busy))
    = Some (carried "error" Sample.detected).
Proof.
  split; [reflexivity | ].
  exact (proj2 (proj2 (proj2
    (error_detected_appends Sample.number Sample.number_truthy
       Sample.busy Sample.detected eq_refl)))).
Defined.

Lemma suggestions_ready_without_array_witness :
  tag Sample.ready_without = Some "suggestions_ready" /\
  truthy Sample.number_truthy (carried "suggestions" Sample.ready_without) = false /\
  currentSuggestions
    (after (handleBugfreeMessage Sample.number_truthy Sample.ready_without Sample.busy))
    = JArr [].
Proof.
  split; [reflexivity | split; [reflexivity | ]].
  exact (proj2
    (suggestions_ready_without_array Sample.number Sample.number_truthy
       Sample.busy Sample.ready_without eq_refl eq_refl)).
Defined.

Lemma malformed_payload_is_logged_only_witness :
  Sample.JSON_parse "{oops" = None /\
  on_message Sample.number_truthy Sample.JSON_parse "{oops" Sample.busy
    = (Returned tt, Sample.busy,
       [console_error "Error parsing Bugfree message:" SyntaxError]).
Proof.
  split; [reflexivity | ].
  exact (malformed_payload_is_logged_only Sample.number Sample.number_truthy
           Sample.JSON_parse Sample.busy "{oops" eq_refl).
Defined.

Lemma unrecognized_tag_is_ignored_witness :
  Sample.JSON_parse "{}" = Some (JObj []) /\
  tag (JObj [] : value Sample.number) <> Some "error_detected" /\
  tag (JObj [] : value Sample.number) <> Some "suggestions_ready" /\
  after (on_message Sample.number_truthy Sample.JSON_parse "{}" Sample.busy)
    = Sample.busy.
Proof.
  split; [reflexivity | ].
  split; [discriminate | ].
  split; [discriminate | ].
  refine (proj1 (proj2
    (unrecognized_tag_is_ignored Sample.number Sample.number_truthy
       Sample.JSON_parse Sample.busy "{}" (JObj []) eq_refl _ _)));
    discriminate.
Defined.

Lemma actions_while_disconnected_witness :
  connection_open (constructor Sample.ws_accepts Sample.defaults
                     : BugfreeProvider Sample.number) = false /\
  notices (calls (stopSystem
                    (constructor Sample.ws_accepts Sample.defaults
                       : BugfreeProvider Sample.number))) = 0%nat.
Proof.
  split; [reflexivity | ].
  exact (proj2 (proj1 (proj2
    (actions_while_disconnected Sample.number
       (constructor Sample.ws_accepts Sample.defaults) Sample.suggestion eq_refl)))).
Defined.

(** C6 as first stated fails on the error callback: a provider whose
    socket has opened is still marked connected after an error event. *)
Lemma error_callback_keeps_connected :
  ~ (isConnected
       (after (on_error (SocketError "read ECONNRESET")
                 (after (on_open (constructor Sample.ws_accepts Sample.defaults
                                    : BugfreeProvider Sample.number)))))
     = false).
Proof.
  cbn. discriminate.
Qed.

Arguments socket_open {number}.
Arguments socket_message {number} data.
Arguments socket_close {number}.
Arguments socket_error {number} e.
Arguments command_startSystem {number}.
Arguments command_stopSystem {number}.
Arguments command_analyzeError {number} editor.
Arguments command_applyFix {number} suggestion.
Arguments command_explainFix {number} suggestion.
Arguments command_ignoreError {number} e.
Arguments command_showErrorDetails {number} e.
Arguments command_showSuggestionDetails {number} suggestion.
Arguments subscription_dispose {number}.
Arguments payload {number} op.
Arguments context_is {number} element literal.
Arguments renderable_error {number} e.
Arguments has_members {number} v.
Arguments is_array {number} v.
Arguments recognized {number} message.
Arguments delivers_suggestions {number} JSON_parse op.
Arguments is_open_event {number} op.
Arguments is_socket_close_call {number} ev.
Arguments item_arguments {number} item.

(** ** Further runs on the concrete host *)

Local Abbreviation sample_perform parse :=
  (perform Sample.number Sample.number_truthy Sample.number_text
     Sample.number_mul Sample.Math_round Sample.number_of_Z parse).

Local Abbreviation sample_run parse :=
  (run Sample.number Sample.number_truthy Sample.number_text
     Sample.number_mul Sample.Math_round Sample.number_of_Z parse).

Local Abbreviation sample_getChildren :=
  (getChildren Sample.number Sample.number_text Sample.number_mul
     Sample.Math_round Sample.number_of_Z Sample.number_positive Sample.NaN
     Sample.StringToNumber Sample.String_length Sample.String_substring).

Lemma sending_while_connected_witness :
  connection_open Sample.busy = true /\
  payload (command_applyFix Sample.suggestion) = Some (apply_fix Sample.suggestion) /\
  exists text,
    calls (sample_perform Sample.JSON_parse (command_applyFix Sample.suggestion) Sample.busy)
      = [ws_send (apply_fix Sample.suggestion); showInformationMessage text].
Proof.
  split; [reflexivity | split; [reflexivity | ]].
  exact (proj2 (proj2
    (sending_while_connected Sample.number Sample.number_truthy Sample.number_text
       Sample.number_mul Sample.Math_round Sample.number_of_Z Sample.JSON_parse
       (command_applyFix Sample.suggestion) (apply_fix Sample.suggestion)
       Sample.busy eq_refl eq_refl))).
Defined.

Lemma no_write_before_open_witness :
  connection_open (constructor Sample.ws_accepts Sample.defaults
                     : BugfreeProvider Sample.number) = false /\
  existsb is_open_event
    [command_startSystem; socket_message "{}";
     command_applyFix Sample.suggestion; socket_close] = false /\
  network_writes
    (snd (sample_run Sample.JSON_parse
            [command_startSystem; socket_message "{}";
             command_applyFix Sample.suggestion; socket_close]
            (constructor Sample.ws_accepts Sample.defaults))) = 0%nat.
Proof.
  split; [reflexivity | split; [reflexivity | ]].
  exact (no_write_before_open Sample.number Sample.number_truthy Sample.number_text
           Sample.number_mul Sample.Math_round Sample.number_of_Z Sample.JSON_parse
           [command_startSystem; socket_message "{}";
            command_applyFix Sample.suggestion; socket_close]
           (constructor Sample.ws_accepts Sample.defaults) eq_refl eq_refl).
Defined.

Lemma rejected_address_means_no_traffic_witness :
  (fun _ : string => false)
    (address (serverHost Sample.defaults)
       (string_of_Z (get (serverPort Sample.defaults) 8003%Z))) = false /\
  network_writes
    (snd (sample_run Sample.JSON_parse
            [socket_open; command_startSystem; subscription_dispose]
            (constructor (fun _ : string => false) Sample.defaults))) = 0%nat.
Proof.
  split; [reflexivity | ].
  exact (proj1 (proj2 (proj2
    (rejected_address_means_no_traffic Sample.number Sample.number_truthy
       Sample.number_text Sample.number_mul Sample.Math_round Sample.number_of_Z
       Sample.JSON_parse (fun _ : string => false) Sample.defaults
       [socket_open; command_startSystem; subscription_dispose] eq_refl)))).
Defined.

Lemma errors_arrive_in_order_witness :
  Forall2 (fun data message =>
             Sample.inbox data = Some message /\
             tag message = Some "error_detected")
    ["first"; "second"]
    [JObj [("type", JStr "error_detected");
           ("error", JObj [("error_type", JStr "NameError");
                           ("error_message", JStr "name 'x' is not defined")])];
     JObj [("type", JStr "error_detected");
           ("error", JObj [("error_type", JStr "TypeError");
                           ("error_message", JStr "unsupported operand")])]] /\
  currentErrors
    (fst (sample_run Sample.inbox
            (map socket_message ["first"; "second"]) Sample.busy))
    = [JObj [("error_type", JStr "TypeError")];
       JObj [("error_type", JStr "NameError");
             ("error_message", JStr "name 'x' is not defined")];
       JObj [("error_type", JStr "TypeError");
             ("error_message", JStr "unsupported operand")]].
Proof.
  assert (H : Forall2 (fun data message =>
             Sample.inbox data = Some message /\
             tag message = Some "error_detected")
    ["first"; "second"]
    [JObj [("type", JStr "error_detected");
           ("error", JObj [("error_type", JStr "NameError");
                           ("error_message", JStr "name 'x' is not defined")])];
     JObj [("type", JStr "error_detected");
           ("error", JObj [("error_type", JStr "TypeError");
                           ("error_message", JStr "unsupported operand")])]]).
  { repeat constructor. }
  split; [exact H | ].
  rewrite (proj1
    (errors_arrive_in_order Sample.number Sample.number_truthy Sample.number_text
       Sample.number_mul Sample.Math_round Sample.number_of_Z Sample.inbox
       _ _ Sample.busy H)).
  reflexivity.
Defined.

Lemma last_suggestions_win_witness :
  Sample.inbox "fixes" = Some Sample.ready /\
  tag Sample.ready = Some "suggestions_ready" /\
  existsb (delivers_suggestions Sample.inbox)
    [socket_message "first"; command_stopSystem] = false /\
  currentSuggestions
    (fst (sample_run Sample.inbox
            ([socket_message "garbled"] ++
             socket_message "fixes" :: [socket_message "first"; command_stopSystem])
            Sample.busy))
    = JArr [JObj [("title", JStr "Define the variable")]].
Proof.
  split; [reflexivity | split; [reflexivity | split; [reflexivity | ]]].
  exact (last_suggestions_win Sample.number Sample.number_truthy Sample.number_text
           Sample.number_mul Sample.Math_round Sample.number_of_Z Sample.inbox
           [socket_message "garbled"] [socket_message "first"; command_stopSystem]
           "fixes" Sample.ready Sample.busy eq_refl eq_refl eq_refl).
Defined.

Lemma refresh_exactly_when_recognized_witness :
  Sample.inbox "first"
    = Some (JObj [("type", JStr "error_detected");
                  ("error", JObj [("error_type", JStr "NameError");
                                  ("error_message", JStr "name 'x' is not defined")])]) /\
  ui_calls (calls (on_message Sample.number_truthy Sample.inbox "first" Sample.busy))
    = 1%nat.
Proof.
  split; [reflexivity | ].
  exact (proj1
    (refresh_exactly_when_recognized Sample.number Sample.number_truthy Sample.inbox
       "first" _ Sample.busy eq_refl)).
Defined.

Lemma null_payload_is_reported_as_parse_error_witness :
  Sample.JSON_parse "null" = Some JNull /\
  on_message Sample.number_truthy Sample.JSON_parse "null" Sample.busy
    = (Returned tt, Sample.busy,
       [console_error "Error parsing Bugfree message:" TypeError]).
Proof.
  split; [reflexivity | ].
  exact (null_payload_is_reported_as_parse_error Sample.number Sample.number_truthy
           Sample.JSON_parse "null" Sample.busy eq_refl).
Defined.

Lemma root_of_the_tree_witness :
  (forall z, Sample.number_positive (Sample.number_of_Z z) = (0 <? z)%Z) /\
  currentSuggestions Sample.viewing
    = JArr [JObj [("title", JStr "Define the variable");
                  ("confidence_score", JNum 1%Z)]] /\
  exists children,
    result (sample_getChildren None Sample.viewing) = Returned children /\
    map (fun item => contextValue item) children
      = [None; Some "errors"; Some "suggestions"] /\
    hd_error (map (fun item => label item) children) = Some "🟢 Connected".
Proof.
  split; [intros z; reflexivity | split; [reflexivity | ]].
  exact (root_of_the_tree Sample.number Sample.number_text Sample.number_mul
           Sample.Math_round Sample.number_of_Z Sample.number_positive Sample.NaN
           Sample.StringToNumber Sample.String_length Sample.String_substring
           Sample.viewing _ (fun z => eq_refl) eq_refl).
Defined.


Lemma errors_node_needs_renderable_errors_witness :
  context_is Sample.errors_node "errors" = true /\
  forallb renderable_error (currentErrors Sample.busy) = false /\
  sample_getChildren (Some Sample.errors_node) Sample.busy
    = (Thrown TypeError, Sample.busy, []).
Proof.
  split; [reflexivity | split; [reflexivity | ]].
  exact (errors_node_needs_renderable_errors Sample.number Sample.number_text
           Sample.number_mul Sample.Math_round Sample.number_of_Z
           Sample.number_positive Sample.NaN Sample.StringToNumber
           Sample.String_length Sample.String_substring
           Sample.errors_node Sample.busy eq_refl eq_refl).
Defined.

Lemma unusable_error_breaks_the_errors_node_for_good_witness :
  Sample.inbox "bare" = Some (JObj [("type", JStr "error_detected")]) /\
  tag (JObj [("type", JStr "error_detected")] : value Sample.number)
    = Some "error_detected" /\
  renderable_error
    (carried "error" (JObj [("type", JStr "error_detected")] : value Sample.number))
    = false /\
  context_is Sample.errors_node "errors" = true /\
  result
    (sample_getChildren (Some Sample.errors_node)
       (fst (sample_run Sample.inbox
               (socket_message "bare" ::
                [socket_message "first"; socket_close; socket_message "fixes"])
               Sample.viewing)))
    = Thrown TypeError.
Proof.
  split; [reflexivity | split; [reflexivity | split; [reflexivity | ]]].
  split; [reflexivity | ].
  exact (unusable_error_breaks_the_errors_node_for_good Sample.number
           Sample.number_truthy Sample.number_text Sample.number_mul
           Sample.Math_round Sample.number_of_Z Sample.inbox
           Sample.number_positive Sample.NaN Sample.StringToNumber
           Sample.String_length Sample.String_substring
           "bare" (JObj [("type", JStr "error_detected")])
           [socket_message "first"; socket_close; socket_message "fixes"]
           Sample.errors_node Sample.viewing eq_refl eq_refl eq_refl eq_refl).
Defined.


Lemma non_array_suggestions_break_the_suggestions_node_witness :
  tag (JObj [("type", JStr "suggestions_ready");
             ("suggestions", JStr "none")] : value Sample.number)
    = Some "suggestions_ready" /\
  truthy Sample.number_truthy
    (carried "suggestions"
       (JObj [("type", JStr "suggestions_ready"); ("suggestions", JStr "none")])) = true /\
  is_array
    (carried "suggestions"
       (JObj [("type", JStr "suggestions_ready");
              ("suggestions", JStr "none")] : value Sample.number)) = false /\
  context_is Sample.suggestions_node "suggestions" = true /\
  result
    (sample_getChildren (Some Sample.suggestions_node)
       (after (handleBugfreeMessage Sample.number_truthy
                 (JObj [("type", JStr "suggestions_ready");
                        ("suggestions", JStr "none")])
                 Sample.viewing)))
    = Thrown TypeError.
Proof.
  split; [reflexivity | split; [reflexivity | split; [reflexivity | ]]].
  split; [reflexivity | ].
  exact (proj2
    (non_array_suggestions_break_the_suggestions_node Sample.number
       Sample.number_truthy Sample.number_text Sample.number_mul
       Sample.Math_round Sample.number_of_Z Sample.number_positive Sample.NaN
       Sample.StringToNumber Sample.String_length Sample.String_substring
       (JObj [("type", JStr "suggestions_ready"); ("suggestions", JStr "none")])
       Sample.suggestions_node Sample.viewing eq_refl eq_refl eq_refl eq_refl)).
Defined.

Lemma children_of_a_node_are_leaves_witness :
  exists child children,
    result (sample_getChildren (Some Sample.errors_node) Sample.viewing)
      = Returned children /\
    In child children /\
    sample_getChildren (Some child) Sample.busy = (Returned [], Sample.busy, []).
Proof.
  eexists. eexists.
  split; [vm_compute; reflexivity | ].
  split; [left; reflexivity | ].
  eapply (children_of_a_node_are_leaves Sample.number Sample.number_text
           Sample.number_mul Sample.Math_round Sample.number_of_Z
           Sample.number_positive Sample.NaN Sample.StringToNumber
           Sample.String_length Sample.String_substring
           Sample.errors_node _ _ Sample.viewing Sample.busy);
    [vm_compute; reflexivity | left; reflexivity].
Defined.
